(** * registry-admin: the HTTP server's authentication callbacks, route table
      and start-up sequence ([app/server/server.go]), embedded in Rocq.

    The development follows the source file top-down:

    - [strconv], [store], [token]: the data the callbacks exchange
      (the store's user record, the auth library's [token.User] and
      [token.Claims], the dynamically typed attribute map);
    - [Server]: [ClaimUpdateFn], [BasicAuthCheckerFn], [Check], [Validate];
    - [Chi]: the router built by [Server.routes], as the tree of
      [Use]/[Group]/[Route]/[Get]... calls the source makes;
    - [Startup]: [Server.Run] and the effects of building the route table;
    - [Maintenance], [Registry], [Pagination]: the collaborators the file
      only declares or calls;
    - [Stop], [Lifecycle]: [Server.Shutdown], and [Run] and [Shutdown] on
      the server object with its mutex;
    - [StaticWeb]: [Server.serveStaticWeb] and the handler it registers. *)

From Stdlib Require Import ZArith String Ascii List Bool.
From Stdlib Require Import DecimalString DecimalZ DecimalPos.
From stdpp Require Import base option gmap strings list.

Set Warnings "-register-all".

Local Open Scope Z_scope.
Local Open Scope string_scope.

(** ** Results of Go calls that can panic *)

Inductive outcome (A : Type) : Type :=
| Returns (a : A)
| Panics (msg : string).
Arguments Returns {A} a.
Arguments Panics {A} msg.

#[global] Instance outcome_bind : MBind outcome := fun A B k m =>
  match m with
  | Returns a => k a
  | Panics msg => Panics msg
  end.

(** Go's [error] interface; only the message matters here, [None] is [nil]. *)
Definition error : Type := option string.

(** ** strconv *)

Module strconv.

(** [strconv.FormatInt(i, 10)]: sign, then the decimal digits without
    leading zeros. *)
Definition FormatInt10 (i : Z) : string :=
  NilZero.string_of_int (Z.to_int i).

End strconv.

(** ** store.User: the record [Storage.GetUser] returns *)

Module store.

(** Modelled from the spec: the user record of the credential store
    (package app/store, declared outside this file): numeric id, unique
    name, credential hash, role and disabled flag, under the field names
    the server reads. *)
Record User : Type := mkUser {
  ID : Z;              (* int64 *)
  Name : string;
  Password : string;   (* the stored hash *)
  Role : string;
  Disabled : bool
}.

End store.

(** ** token.User and token.Claims of the auth library *)

Module token.

(** A value stored in [map[string]interface{}]. *)
Inductive any : Type :=
| VBool (b : bool)
| VInt64 (i : Z)
| VString (s : string)
| VOther (descr : string).

(** [Attributes] is a Go map: [None] is the nil map. *)
Record User : Type := mkUser {
  Name : string;
  ID : string;
  Picture : string;
  Audience : string;
  IP : string;
  Email : string;
  Attributes : option (gmap string any);
  Role : string
}.

(** [token.User{}] *)
Definition zero : User :=
  mkUser "" "" "" "" "" "" None "".

Definition with_Name (u : User) (n : string) : User :=
  mkUser n (ID u) (Picture u) (Audience u) (IP u) (Email u) (Attributes u) (Role u).

Definition with_ID (u : User) (i : string) : User :=
  mkUser (Name u) i (Picture u) (Audience u) (IP u) (Email u) (Attributes u) (Role u).

Definition with_Attributes (u : User) (a : option (gmap string any)) : User :=
  mkUser (Name u) (ID u) (Picture u) (Audience u) (IP u) (Email u) a (Role u).

(** [func (u *User) SetRole(role string)] *)
Definition SetRole (u : User) (role : string) : User :=
  mkUser (Name u) (ID u) (Picture u) (Audience u) (IP u) (Email u) (Attributes u) role.

(** [m[k] = v]; assignment to an entry of a nil map panics. *)
Definition mapassign (m : option (gmap string any)) (k : string) (v : any)
  : outcome (option (gmap string any)) :=
  match m with
  | Some entries => Returns (Some (<[k := v]> entries))
  | None => Panics "assignment to entry in nil map"
  end.

(** [m[k]]; reading a nil map yields the zero value (no entry). *)
Definition mapaccess (m : option (gmap string any)) (k : string) : option any :=
  match m with
  | Some entries => entries !! k
  | None => None
  end.

(** [func (u *User) SetBoolAttr(key string, val bool)]: allocates the map
    when it is nil, then stores the value. *)
Definition SetBoolAttr (u : User) (key : string) (val : bool) : User :=
  let entries := match Attributes u with
                 | Some entries => entries
                 | None => ∅
                 end in
  with_Attributes u (Some (<[key := VBool val]> entries)).

(** [func (u *User) BoolAttr(key string) bool]:
    [r, ok := u.Attributes[key].(bool)]. *)
Definition BoolAttr (u : User) (key : string) : bool :=
  match mapaccess (Attributes u) key with
  | Some (VBool r) => r
  | _ => false
  end.

(** [jwt.StandardClaims], embedded in [Claims]. *)
Record StandardClaims : Type := mkStandardClaims {
  Aud : string;
  ExpiresAt : Z;
  Id : string;
  IssuedAt : Z;
  Issuer : string;
  NotBefore : Z;
  Subject : string
}.

(** Addresses of heap-allocated [token.User] objects. *)
Definition ptr : Type := positive.

(** [Claims.User] is a [*User]: [None] is the nil pointer.  The handshake
    block is not touched by this file and is kept as an opaque string. *)
Record Claims : Type := mkClaims {
  Std : StandardClaims;
  User_ : option ptr;
  SessionOnly : bool;
  Handshake : option string;
  NoAva : bool
}.

End token.

(** The [token.User] objects claims point to. *)
Abbreviation heap := (gmap token.ptr token.User).

(** [*p] for a possibly nil pointer. *)
Definition deref (h : heap) (p : option token.ptr) : outcome (token.ptr * token.User) :=
  match p with
  | None => Panics "invalid memory address or nil pointer dereference"
  | Some a =>
      match h !! a with
      | Some u => Returns (a, u)
      | None => Panics "invalid memory address or nil pointer dereference"
      end
  end.

(** ** The Server methods handed to the auth library *)

Section Server.

(** [s.Storage.GetUser(s.ctx, name)]: the store is an interface of the
    repository whose engines are not part of this file; a Go call returns
    both the record and the error. *)
Variable GetUser : string -> store.User * error.

(** [store.ComparePassword(hash, password)] *)
Variable ComparePassword : string -> string -> bool.

(** [func (s *Server) ClaimUpdateFn(claims token.Claims) token.Claims].
    [claims] is passed by value but [claims.User] is a pointer: the
    updates go to the pointed-to object, the returned struct is the
    argument itself. *)
Definition ClaimUpdateFn (h : heap) (claims : token.Claims)
  : outcome (heap * token.Claims) :=
  '(p, tu) ← deref h (token.User_ claims);
  let '(u, err) := GetUser (token.Name tu) in
  match err with
  | Some _ => Returns (h, claims)
  | None =>
      let tu := token.SetRole tu (store.Role u) in
      let tu := match token.Attributes tu with
                | None => token.with_Attributes tu (Some ∅)
                | Some _ => tu
                end in
      let tu := token.SetBoolAttr tu "disabled" (store.Disabled u) in
      attrs ← token.mapassign (token.Attributes tu) "uid" (token.VInt64 (store.ID u));
      let tu := token.with_Attributes tu attrs in
      Returns (<[p := tu]> h, claims)
  end.

(** [errors.Errorf("User with login '%s' disabled", user)] *)
Definition disabled_error (user : string) : string :=
  "User with login '" +:+ user +:+ "' disabled".

(** [func (s *Server) BasicAuthCheckerFn(user, password string)
      (bool, token.User, error)] *)
Definition BasicAuthCheckerFn (user password : string)
  : outcome (bool * token.User * error) :=
  let claim := token.zero in
  let '(u, err) := GetUser user in
  match err with
  | Some _ => Returns (false, claim, None)
  | None =>
      if store.Disabled u then
        Returns (false, claim, Some (disabled_error user))
      else
        let ok := ComparePassword (store.Password u) password in
        if negb ok then Returns (false, claim, None)
        else
          let claim := token.with_Name claim (store.Name u) in
          let claim := token.SetRole claim (store.Role u) in
          let claim := match token.Attributes claim with
                       | None => token.with_Attributes claim (Some ∅)
                       | Some _ => claim
                       end in
          attrs ← token.mapassign (token.Attributes claim) "uid"
                     (token.VInt64 (store.ID u));
          let claim := token.with_Attributes claim attrs in
          let claim := token.with_ID claim (strconv.FormatInt10 (store.ID u)) in
          Returns (true, claim, None)
  end.

(** [func (s *Server) Check(user, password string) (ok bool, err error)] *)
Definition Check (user password : string) : outcome (bool * error) :=
  '(ok, _, err) ← BasicAuthCheckerFn user password;
  Returns (ok, err).

(** [func (s *Server) Validate(_ string, claims token.Claims) bool] *)
Definition Validate (h : heap) (_ : string) (claims : token.Claims) : outcome bool :=
  match token.User_ claims with
  | None => Returns false
  | Some _ =>
      '(_, tu) ← deref h (token.User_ claims);
      Returns (negb (token.BoolAttr tu "disabled"))
  end.

(** The claim [BasicAuthCheckerFn] builds for a stored user. *)
Definition granted (u : store.User) : token.User :=
  token.mkUser (store.Name u) (strconv.FormatInt10 (store.ID u)) "" "" "" ""
    (Some {[ "uid" := token.VInt64 (store.ID u) ]}) (store.Role u).

(** What [ClaimUpdateFn] writes into the user a claim points to. *)
Definition refreshed (tu : token.User) (u : store.User) : token.User :=
  token.mkUser (token.Name tu) (token.ID tu) (token.Picture tu) (token.Audience tu)
    (token.IP tu) (token.Email tu)
    (Some (<["uid" := token.VInt64 (store.ID u)]>
             (<["disabled" := token.VBool (store.Disabled u)]>
                (default ∅ (token.Attributes tu)))))
    (store.Role u).

(** The four ways through [BasicAuthCheckerFn]. *)
Inductive auth_case (name password : string) : bool * token.User * error -> Prop :=
| auth_lookup_failed u e :
    GetUser name = (u, Some e) ->
    auth_case name password (false, token.zero, None)
| auth_disabled u :
    GetUser name = (u, None) -> store.Disabled u = true ->
    auth_case name password (false, token.zero, Some (disabled_error name))
| auth_mismatch u :
    GetUser name = (u, None) -> store.Disabled u = false ->
    ComparePassword (store.Password u) password = false ->
    auth_case name password (false, token.zero, None)
| auth_match u :
    GetUser name = (u, None) -> store.Disabled u = false ->
    ComparePassword (store.Password u) password = true ->
    auth_case name password (true, granted u, None).

End Server.

(** ** The router built by [Server.routes] *)

Module Chi.

Inductive method : Type := GET | POST | PUT | DELETE.

(** The middlewares the source installs, by the name it uses. *)
Inductive middleware : Type :=
| Throttle (limit : Z)
| RealIP
| Recoverer
| Timeout (seconds : Z)
| Ping
| Cors
| AccessLog
| LimitHandler (max : Z)
| NoCache
| Trace                        (* authMiddleware.Trace *)
| Auth                         (* authMiddleware.Auth *)
| RBAC (roles : list string).  (* authMiddleware.RBAC(roles...) *)

Inductive handler : Type :=
| authHandler
| userInfoCtrl | userFindCtrl | userCreateCtrl | userUpdateCtrl | userDeleteCtrl
| groupInfoCtrl | groupFindCtrl | groupCreateCtrl | groupUpdateCtrl | groupDeleteCtrl
| accessInfoCtrl | accessFindCtrl | accessAddCtrl | accessUpdateCtrl | accessDeleteCtrl
| tokenAuth | events | health
| catalogList | imageConfig | syncRepositories | deleteDigest
| staticWeb.

(** One call on a [chi.Router], in the order the source makes them. *)
Inductive route : Type :=
| Use (ms : list middleware)
| Group (body : list route)
| Route (pattern : string) (body : list route)
| Mount (pattern : string) (h : handler)
| Handle (m : method) (pattern : string) (h : handler).

(** [router] as [Server.routes] assembles it. *)
Definition router : list route :=
  [ Use [Throttle 1000; RealIP; Recoverer];
    Use [Timeout 30];
    Use [Ping];
    Use [Cors];
    Use [AccessLog];
    Group
      [ Use [Timeout 5];
        Use [LimitHandler 10; NoCache];
        Mount "/auth" authHandler ];
    Route "/api/v1"
      [ Group
          [ Use [LimitHandler 10];
            Use [Trace; NoCache];
            Route "/users"
              [ Use [Auth; NoCache];
                Use [RBAC ["admin"; "manager"]];
                Handle GET "/{id}" userInfoCtrl;
                Handle GET "/" userFindCtrl;
                Group
                  [ Use [RBAC ["admin"]];
                    Handle POST "/" userCreateCtrl;
                    Handle PUT "/{id}" userUpdateCtrl;
                    Handle DELETE "/{id}" userDeleteCtrl ] ];
            Route "/groups"
              [ Use [Auth; NoCache];
                Use [RBAC ["admin"; "manager"]];
                Handle GET "/{id}" groupInfoCtrl;
                Handle GET "/" groupFindCtrl;
                Group
                  [ Use [RBAC ["admin"]];
                    Handle POST "/" groupCreateCtrl;
                    Handle PUT "/{id}" groupUpdateCtrl;
                    Handle DELETE "/{id}" groupDeleteCtrl ] ];
            Route "/access"
              [ Use [Auth; NoCache];
                Use [RBAC ["admin"; "manager"]];
                Handle GET "/{id}" accessInfoCtrl;
                Handle GET "/" accessFindCtrl;
                Group
                  [ Use [RBAC ["admin"]];
                    Handle POST "/" accessAddCtrl;
                    Handle PUT "/{id}" accessUpdateCtrl;
                    Handle DELETE "/{id}" accessDeleteCtrl ] ];
            Route "/registry"
              [ Handle GET "/auth" tokenAuth;
                Group
                  [ Use [Auth; NoCache];
                    Handle POST "/events" events;
                    Handle GET "/health" health ];
                Group
                  [ Use [Auth; NoCache];
                    Handle GET "/catalog" catalogList ];
                Group
                  [ Use [Auth; NoCache];
                    Use [RBAC ["admin"; "manager"]];
                    Handle GET "/catalog/blobs" imageConfig ];
                Group
                  [ Use [RBAC ["admin"]];
                    Handle GET "/sync" syncRepositories;
                    Handle DELETE "/catalog/*" deleteDigest ] ] ] ];
    (* serveStaticWeb(router, "/", "web") *)
    Handle GET "/*" staticWeb ].

(** A registered endpoint: the full pattern, the method ([None]: a mounted
    handler takes every method) and the middlewares wrapped around the
    handler, outermost first. *)
Record endpoint : Type := mkEndpoint {
  ep_method : option method;
  ep_pattern : string;
  ep_chain : list middleware;
  ep_handler : handler
}.

Definition uses (r : route) : list middleware :=
  match r with
  | Use ms => ms
  | _ => []
  end.

(** The endpoints one router call registers below [prefix], behind the
    middlewares [chain] already in use.  A [Use] extends the chain of the
    calls that follow it in the same body; [Group] and [Route] inherit the
    chain of their parent, [Route] also extends the prefix. *)
Fixpoint endpoints_of (prefix : string) (chain : list middleware) (r : route)
  {struct r} : list endpoint :=
  let body_endpoints prefix :=
    fix go (chain : list middleware) (rs : list route) : list endpoint :=
      match rs with
      | [] => []
      | r' :: rest => (endpoints_of prefix chain r' ++ go (chain ++ uses r') rest)%list
      end in
  match r with
  | Use _ => []
  | Group body => body_endpoints prefix chain body
  | Route pattern body => body_endpoints (prefix +:+ pattern) chain body
  | Mount pattern h =>
      [mkEndpoint None (prefix +:+ pattern) chain h;
       mkEndpoint None (prefix +:+ pattern +:+ "/*") chain h]
  | Handle m pattern h => [mkEndpoint (Some m) (prefix +:+ pattern) chain h]
  end.

Definition endpoints (rs : list route) : list endpoint :=
  endpoints_of "" [] (Group rs).

(** Path segments between slashes. *)
Fixpoint segments (s : string) : list string :=
  match s with
  | EmptyString => [""]
  | String c rest =>
      if Ascii.eqb c "/" then "" :: segments rest
      else match segments rest with
           | seg :: segs => String c seg :: segs
           | [] => [String c ""]
           end
  end.

Definition is_param (seg : string) : bool :=
  match seg with
  | String c _ => Ascii.eqb c "{"
  | EmptyString => false
  end.

(** A pattern segment is a literal, a [{name}] placeholder for one
    segment, or the catch-all [*] for whatever follows the slash. *)
Fixpoint match_segments (pat path : list string) : bool :=
  match pat, path with
  | [], [] => true
  | p :: pat', s :: path' =>
      if String.eqb p "*" then true
      else (if is_param p then true else String.eqb p s)
           && match_segments pat' path'
  | _, _ => false
  end.

Definition matches (pattern path : string) : bool :=
  match_segments (segments pattern) (segments path).

Definition method_eqb (a b : method) : bool :=
  match a, b with
  | GET, GET | POST, POST | PUT, PUT | DELETE, DELETE => true
  | _, _ => false
  end.

(** A request as the middlewares see it: [req_user] is the user of the
    valid session token sent with the request, if there is one. *)
Record request : Type := mkRequest {
  req_method : method;
  req_path : string;
  req_user : option token.User
}.

Definition to_lower (c : ascii) : ascii :=
  let n := nat_of_ascii c in
  if (Nat.leb 65 n && Nat.leb n 90)%bool then ascii_of_nat (n + 32) else c.

Fixpoint lower (s : string) : string :=
  match s with
  | EmptyString => EmptyString
  | String c rest => String (to_lower c) (lower rest)
  end.

(** [strings.EqualFold] on ASCII role names. *)
Definition EqualFold (a b : string) : bool :=
  String.eqb (lower a) (lower b).

(** Whether a middleware lets the request through to the next handler,
    after the auth library's middleware package: [Auth] demands a valid
    session; [RBAC] demands a valid session whose user has one of the roles
    (compared with [EqualFold]); [Trace] only records the user.  The others
    (throttling, time-outs, rate limits, CORS, logging) do not look at the
    session: [env] says whether they let this request through. *)
Definition passes (env : middleware -> bool) (r : request) (m : middleware) : bool :=
  match m with
  | Auth => bool_decide (is_Some (req_user r))
  | RBAC roles =>
      match req_user r with
      | Some u => existsb (fun role => EqualFold role (token.Role u)) roles
      | None => false
      end
  | Trace => true
  | other => env other
  end.

(** The endpoint can take the request: method and pattern match and every
    middleware in front of it passed.  The router hands a request to one
    endpoint only and has its own rules for placeholders and for the root
    of a mounted router, which [matches] follows in outline; the
    properties below rest on the middlewares in front of the handler. *)
Definition serves (env : middleware -> bool) (r : request) (e : endpoint) : bool :=
  match ep_method e with
  | Some m => method_eqb m (req_method r)
  | None => true
  end
  && matches (ep_pattern e) (req_path r)
  && forallb (passes env r) (ep_chain e).

End Chi.

(** ** Start-up: [Server.Run] and the effects of [Server.routes] *)

Module Startup.

(** What a listener serves. *)
Inductive served : Type :=
| ApiRouter (r : list Chi.route)   (* s.routes() *)
| RedirectRouter                   (* s.httpToHTTPSRouter() *)
| ChallengeRouter.                 (* s.httpChallengeRouter(m) *)

(** The calls [Run] makes that leave the function. *)
Inductive event : Type :=
| Log (line : string)
| CallUpdateHtpasswd
| CallRepositoriesMaintenance (interval : Z)
| ListenAndServe (addr : string) (what : served)
| ListenAndServeTLS (addr : string) (what : served)
| Go (addr : string) (what : served).   (* [go func() { ... ListenAndServe() }] *)

(** A computation that emits events and returns or panics. *)
Record eff (A : Type) : Type := mkEff {
  trace : list event;
  result : outcome A
}.
Arguments mkEff {A} trace result.
Arguments trace {A} e.
Arguments result {A} e.

Definition ret {A} (a : A) : eff A := mkEff [] (Returns a).
Definition tell (e : event) : eff unit := mkEff [e] (Returns tt).
Definition panic {A} (msg : string) : eff A := mkEff [] (Panics msg).

#[global] Instance eff_bind : MBind eff := fun A B k m =>
  match result m with
  | Returns a => mkEff (trace m ++ trace (k a))%list (result (k a))
  | Panics msg => mkEff (trace m) (Panics msg)
  end.

(** The SSL modes [Run] switches on.  The type is declared in another file
    of the package; [SSLOther] stands for a value the switch has no case
    for. *)
Inductive sslMode : Type := SSLNone | SSLStatic | SSLAuto | SSLOther.

Record SSLConfig : Type := mkSSLConfig {
  SSLMode : sslMode;
  SSLPort : Z;
  Cert : string;
  Key : string
}.

(** The part of [registryInterface] start-up calls: what
    [UpdateHtpasswd(usersFn)] returns. *)
Record registryInterface : Type := mkRegistry {
  UpdateHtpasswd : error
}.

(** [RegistryService] is an interface value: [None] is nil. *)
Record Server : Type := mkServer {
  Hostname : string;
  Listen : string;
  Port : Z;
  SSLConfig_ : SSLConfig;
  RegistryService : option registryInterface;
  GarbageCollectorInterval : Z
}.

(** Results of the calls into the standard library. *)
Record world : Type := mkWorld {
  fs_Sub : error;          (* fs.Sub(s.WebContentFS, rootWebDir) *)
  serve_http : error;      (* what ListenAndServe returns when it ends *)
  serve_https : error      (* what ListenAndServeTLS returns when it ends *)
}.

(** [func (s *Server) serveStaticWeb(r chi.Router, path, rootWebDir string)] *)
Definition serveStaticWeb (w : world) : eff unit :=
  match fs_Sub w with
  | Some err => panic (err +:+ ": failed to read web directory from embed FS")
  | None => ret tt
  end.

(** [func (s *Server) routes() chi.Router]: the router is [Chi.router];
    on the way the function synchronises the credential file and starts the
    maintenance tasks. *)
Definition routes (s : Server) (w : world) : eff (list Chi.route) :=
  match RegistryService s with
  | None => panic "invalid memory address or nil pointer dereference"
  | Some registryService =>
      _ ← tell CallUpdateHtpasswd;
      _ ← match UpdateHtpasswd registryService with
          | Some err => panic ("failed to update htpasswd: " +:+ err)
          | None => ret tt
          end;
      _ ← tell (CallRepositoriesMaintenance (GarbageCollectorInterval s));
      _ ← serveStaticWeb w;
      ret Chi.router
  end.

(** [fmt.Sprintf("%s:%d", host, port)] *)
Definition addr (host : string) (port : Z) : string :=
  host +:+ ":" +:+ strconv.FormatInt10 port.

(** [func (s *Server) Run(ctx context.Context) error] *)
Definition Run (s : Server) (w : world) : eff error :=
  let listen := if String.eqb (Listen s) "*" then "" else Listen s in
  match RegistryService s with
  | None => ret (Some "a registry service define required ")
  | Some _ =>
      let ssl := SSLConfig_ s in
      match SSLMode ssl with
      | SSLNone =>
          _ ← tell (Log ("[INFO] activate http rest server on " +:+ addr listen (Port s)));
          router ← routes s w;
          _ ← tell (ListenAndServe (addr listen (Port s)) (ApiRouter router));
          ret (serve_http w)
      | SSLStatic =>
          _ ← tell (Log ("[INFO] activate https server in 'static' mode on "
                          +:+ addr listen (SSLPort ssl)));
          router ← routes s w;
          _ ← tell (Go (addr listen (Port s)) RedirectRouter);
          _ ← tell (ListenAndServeTLS (addr listen (SSLPort ssl)) (ApiRouter router));
          ret (serve_https w)
      | SSLAuto =>
          _ ← tell (Log ("[INFO] activate https server in 'auto' mode on "
                          +:+ addr listen (SSLPort ssl)));
          router ← routes s w;
          _ ← tell (Go (addr listen (Port s)) ChallengeRouter);
          _ ← tell (ListenAndServeTLS (addr listen (SSLPort ssl)) (ApiRouter router));
          ret (serve_https w)
      | SSLOther => ret None
      end
  end.

Definition is_sync (e : event) : bool :=
  match e with
  | CallUpdateHtpasswd => true
  | _ => false
  end.

(** The API routes are being served. *)
Definition is_serving (e : event) : bool :=
  match e with
  | ListenAndServe _ (ApiRouter _) | ListenAndServeTLS _ (ApiRouter _) => true
  | _ => false
  end.

Definition count (f : event -> bool) (tr : list event) : nat :=
  length (List.filter f tr).

End Startup.

(** ** The maintenance scheduler started by [routes] *)

Module Maintenance.

Inductive phase : Type := Idle | Running.

(** [guard] is the non-blocking guard of the scheduler; [active] counts the
    runs in progress, [started] and [skipped] the ticks that began a run
    and the ticks that were dropped, [failures] the errors raised. *)
Record scheduler : Type := mkScheduler {
  guard : phase;
  active : nat;
  started : nat;
  skipped : nat;
  failures : list string
}.

Inductive event : Type :=
| Tick                        (* the timer fires *)
| Finished (err : error).     (* the run in progress ends *)

Definition init : scheduler := mkScheduler Idle 0 0 0 [].

(** Modelled from the spec: [service.DataService.RepositoriesMaintenance]
    (package app/store/service) is only called from [routes]; its body is
    not in this file.  The scheduler is the state machine
    [Idle -> Running -> Idle] ticking on a fixed interval: a zero or
    negative interval disables it, a tick tries to acquire the guard and
    starts a run when it is free, and a tick that finds a run in progress
    is skipped, neither queued nor reported as an error.  A run that fails
    is logged as a failure and returns the scheduler to [Idle]. *)
Definition RepositoriesMaintenance (interval : Z) (s : scheduler) (e : event)
  : scheduler :=
  match e with
  | Tick =>
      if (interval <=? 0)%Z then s
      else match guard s with
           | Idle =>
               mkScheduler Running (S (active s)) (S (started s)) (skipped s) (failures s)
           | Running =>
               mkScheduler Running (active s) (started s) (S (skipped s)) (failures s)
           end
  | Finished err =>
      match guard s with
      | Running =>
          mkScheduler Idle (pred (active s)) (started s) (skipped s)
            (match err with
             | Some msg => ("MaintenanceTaskFailed: " +:+ msg) :: failures s
             | None => failures s
             end)
      | Idle => s
      end
  end.

(** The scheduler after a sequence of timer and completion events. *)
Definition after (interval : Z) (evs : list event) : scheduler :=
  fold_left (RepositoriesMaintenance interval) evs init.

End Maintenance.

(** ** The registry client behind [registryInterface] *)

Module Registry.

(** The error taxonomy of the client. *)
Inductive domain_error : Type :=
| AuthorizationDenied
| NotFound
| UpstreamUnavailable
| UpstreamProtocolError.

(** One repository of the upstream registry: the manifests it holds, by
    digest, and the tags naming them. *)
Record repository : Type := mkRepository {
  manifests : gset string;
  tags : gmap string string
}.

Abbreviation upstream := (gmap string repository).

(** Modelled from the spec: the implementation of
    [registryInterface.Manifest] (package app/registry) is not in this
    file.  The manifest fetch takes a reference that is a tag or a digest
    and yields the digest of the manifest it identifies; an unknown
    repository or reference is [NotFound]. *)
Definition Manifest (up : upstream) (repoName reference : string)
  : string + domain_error :=
  match up !! repoName with
  | None => inr NotFound
  | Some repo =>
      match tags repo !! reference with
      | Some digest => inl digest
      | None =>
          if bool_decide (reference ∈ manifests repo) then inl reference
          else inr NotFound
      end
  end.

(** Modelled from the spec: the implementation of
    [registryInterface.DeleteTag] (package app/registry) is not in this
    file.  Deletion addresses a manifest by content digest only: the
    manifest with that digest is removed together with every tag pointing
    to it; a digest the repository does not hold (a tag name, for one) is
    [NotFound] and changes nothing. *)
Definition DeleteTag (up : upstream) (repoName digest : string)
  : upstream * option domain_error :=
  match up !! repoName with
  | None => (up, Some NotFound)
  | Some repo =>
      if bool_decide (digest ∈ manifests repo) then
        (<[repoName :=
             mkRepository (manifests repo ∖ {[digest]})
                          (filter (fun kv => kv.2 ≠ digest) (tags repo))]> up,
         None)
      else (up, Some NotFound)
  end.

(** Modelled from the spec: callers of the client delete a tag by
    resolving it to its digest through the manifest fetch and deleting that
    digest. *)
Definition delete_tag (up : upstream) (repoName tag : string)
  : upstream * option domain_error :=
  match Manifest up repoName tag with
  | inl digest => DeleteTag up repoName digest
  | inr err => (up, Some err)
  end.

(** The tags of a repository that point to a digest. *)
Definition tags_of (up : upstream) (repoName digest : string) : gset string :=
  match up !! repoName with
  | Some repo => dom (filter (fun kv => kv.2 = digest) (tags repo))
  | None => ∅
  end.

Definition tag_digest (up : upstream) (repoName tag : string) : option string :=
  repo ← up !! repoName; tags repo !! tag.

(** A listing request as it goes upstream, and the answer. *)
Record page_request : Type := mkPageRequest {
  req_path : string;
  req_n : string;
  req_last : string
}.

Record page_response : Type := mkPageResponse {
  status : Z;
  names : list string;
  link_next : bool        (* a [Link: <...>; rel="next"] header is present *)
}.

(** A page and whether more pages remain. *)
Record page : Type := mkPage {
  items : list string;
  more : bool
}.

(** Modelled from the spec: upstream HTTP status codes in the client's
    error taxonomy. *)
Definition classify (status : Z) : option domain_error :=
  if ((200 <=? status) && (status <? 300))%Z then None
  else if ((status =? 401) || (status =? 403))%Z then Some AuthorizationDenied
  else if (status =? 404)%Z then Some NotFound
  else if ((500 <=? status) && (status <? 600))%Z then Some UpstreamUnavailable
  else Some UpstreamProtocolError.

(** Modelled from the spec: one paginated listing call, shared by
    [Catalog] and [ListingImageTags]. *)
Definition list_page (registry : page_request -> page_response)
    (path n last : string) : page + domain_error :=
  let resp := registry (mkPageRequest path n last) in
  match classify (status resp) with
  | None => inl (mkPage (names resp) (link_next resp))
  | Some err => inr err
  end.

(** Modelled from the spec: the implementation of
    [registryInterface.Catalog] (package app/registry) is not in this file.
    The call takes the page-size hint [n] and the cursor [last], passes both
    upstream as they are, and returns the page of the answer with whether a
    next page is announced. *)
Definition Catalog (registry : page_request -> page_response)
    (n last : string) : page + domain_error :=
  list_page registry "/v2/_catalog" n last.



End Registry.

(** ** Paginated listing against the registry *)

Module Pagination.

(** Modelled from the spec: the names that follow the cursor in the
    registry's listing, the cursor being the name of the last item seen. *)
Fixpoint after (last : string) (names : list string) : list string :=
  match names with
  | [] => []
  | x :: rest => if String.eqb x last then rest else after last rest
  end.





End Pagination.

(** ** Sample data *)

Module Sample.

(** A store with an enabled administrator and a disabled user; the sample
    hash of a password is the password behind the prefix [h:]. *)
Definition GetUser (name : string) : store.User * error :=
  if String.eqb name "alice" then
    (store.mkUser 7 "alice" "h:wonder" "admin" false, None)
  else if String.eqb name "mallory" then
    (store.mkUser 9 "mallory" "h:evil" "user" true, None)
  else (store.mkUser 0 "" "" "" false, Some "record not found").

Definition ComparePassword (hash password : string) : bool :=
  String.eqb hash ("h:" +:+ password).

Definition user (name : string) : token.User :=
  token.mkUser name "" "" "" "" "" None "".

Definition claims (p : token.ptr) : token.Claims :=
  token.mkClaims (token.mkStandardClaims "registry" 0 "" 0 "registry-admin" 0 "")
    (Some p) false None false.

Definition server (sync : error) : Startup.Server :=
  Startup.mkServer "https://reg.example" "*" 80
    (Startup.mkSSLConfig Startup.SSLStatic 443 "cert.crt" "cert.key")
    (Some (Startup.mkRegistry sync)) 3600.

Definition world : Startup.world :=
  Startup.mkWorld None (Some "http: Server closed") (Some "http: Server closed").

(** A repository where [latest] and [v1] name the same manifest. *)
Definition registry : Registry.upstream :=
  {[ "team/app" :=
       Registry.mkRepository {[ "sha256:aa"; "sha256:bb" ]}
         (<["latest" := "sha256:aa"]> (<["v1" := "sha256:aa"]> {[ "v0" := "sha256:bb" ]})) ]}.

(** An upstream catalog of three repositories served two at a time. *)
Definition catalog (rq : Registry.page_request) : Registry.page_response :=
  if String.eqb (Registry.req_last rq) "" then
    Registry.mkPageResponse 200 ["a"; "b"] true
  else if String.eqb (Registry.req_last rq) "b" then
    Registry.mkPageResponse 200 ["c"] false
  else Registry.mkPageResponse 200 [] false.

End Sample.

(** ** Shutdown *)

Module Stop.

(** The calls [Shutdown] makes, in order. *)
Inductive event : Type :=
| Log (line : string)
| Lock
| Unlock
| ShutdownHTTP        (* s.httpServer.Shutdown(ctx) *)
| ShutdownHTTPS       (* s.httpsServer.Shutdown(ctx) *)
| StorageClose        (* s.Storage.Close(ctx) *)
| Cancel.             (* the deferred cancel of the one-second context *)

(** [s.httpServer] and [s.httpsServer]: [None] is nil, otherwise the
    address the server was made for. *)
Record servers : Type := mkServers {
  httpServer : option string;
  httpsServer : option string
}.

(** What the three calls return. *)
Record world : Type := mkWorld {
  http_shutdown : error;
  https_shutdown : error;
  storage_close : error
}.

(** [func (s *Server) Shutdown()] *)
Definition Shutdown (s : servers) (w : world) : list event :=
  ([Log "[WARN] shutdown rest server"; Lock]
   ++ match httpServer s with
      | Some _ =>
          [ShutdownHTTP]
          ++ match http_shutdown w with
             | Some err => [Log ("[DEBUG] http shutdown error, " +:+ err)]
             | None => []
             end
          ++ [Log "[DEBUG] shutdown http server completed"]
      | None => []
      end
   ++ match httpsServer s with
      | Some _ =>
          [Log "[WARN] shutdown https server"; ShutdownHTTPS]
          ++ match https_shutdown w with
             | Some err => [Log ("[DEBUG] https shutdown error, " +:+ err)]
             | None => []
             end
          ++ [Log "[DEBUG] shutdown https server completed"]
      | None => []
      end
   ++ [StorageClose]
   ++ match storage_close w with
      | Some _ => [Log "[ERROR] failed to close storage connection"]
      | None => []
      end
   ++ [Unlock; Cancel])%list.

End Stop.

(** ** The server object between [Run] and [Shutdown] *)

Module Lifecycle.

(** The fields of [Server] that [Run] and [Shutdown] read or write: the
    exported configuration, the context, the two HTTP servers ([None] is
    nil, otherwise the address the server was made for) and the mutex. *)
Record server : Type := mkServer {
  config : Startup.Server;
  ctx : option string;
  httpServer : option string;
  httpsServer : option string;
  locked : bool
}.

(** The calls of [Run], with the mutex operations among them. *)
Inductive event : Type :=
| Lock
| Unlock
| Call (e : Startup.event).

(** A method ends by returning or panicking, or never ends: it waits for a
    mutex that is not released. *)
Inductive ending (A : Type) : Type :=
| Ended (r : outcome A)
| Blocked.
Arguments Ended {A} r.
Arguments Blocked {A}.

Record run : Type := mkRun {
  after : server;
  trace : list event;
  ending_of : ending error
}.

Definition with_Listen (cfg : Startup.Server) (listen : string) : Startup.Server :=
  Startup.mkServer (Startup.Hostname cfg) listen (Startup.Port cfg)
    (Startup.SSLConfig_ cfg) (Startup.RegistryService cfg)
    (Startup.GarbageCollectorInterval cfg).

(** One case of the switch in [Run]: log, take the mutex, build the router
    (a panic of [routes] leaves the mutex held: nothing is deferred),
    record the servers, release the mutex and listen. *)
Definition start (s : server) (w : Startup.world) (line : string)
    (record : server -> server)
    (listeners : list Chi.route -> list Startup.event)
    (result : error) : run :=
  if locked s then mkRun s [Call (Startup.Log line)] Blocked
  else
    let built := Startup.routes (config s) w in
    match Startup.result built with
    | Panics msg =>
        mkRun (mkServer (config s) (ctx s) (httpServer s) (httpsServer s) true)
          (Call (Startup.Log line) :: Lock :: (Call <$> Startup.trace built))
          (Ended (Panics msg))
    | Returns router =>
        mkRun (record s)
          (Call (Startup.Log line) :: Lock
           :: (Call <$> Startup.trace built)
           ++ Unlock :: (Call <$> listeners router))%list
          (Ended (Returns result))
    end.

(** [func (s *Server) Run(ctx context.Context) error], with the writes to
    the server it makes. *)
Definition Run (s : server) (c : string) (w : Startup.world) : run :=
  let listen := if String.eqb (Startup.Listen (config s)) "*" then ""
                else Startup.Listen (config s) in
  let cfg := with_Listen (config s) listen in
  let s := mkServer cfg (Some c) (httpServer s) (httpsServer s) (locked s) in
  match Startup.RegistryService cfg with
  | None => mkRun s [] (Ended (Returns (Some "a registry service define required ")))
  | Some _ =>
      let ssl := Startup.SSLConfig_ cfg in
      let plain := Startup.addr listen (Startup.Port cfg) in
      let tls := Startup.addr listen (Startup.SSLPort ssl) in
      match Startup.SSLMode ssl with
      | Startup.SSLNone =>
          start s w ("[INFO] activate http rest server on " +:+ plain)
            (fun s => mkServer (config s) (ctx s) (Some plain) (httpsServer s) (locked s))
            (fun router => [Startup.ListenAndServe plain (Startup.ApiRouter router)])
            (Startup.serve_http w)
      | Startup.SSLStatic =>
          start s w ("[INFO] activate https server in 'static' mode on " +:+ tls)
            (fun s => mkServer (config s) (ctx s) (Some plain) (Some tls) (locked s))
            (fun router => [Startup.Go plain Startup.RedirectRouter;
                            Startup.ListenAndServeTLS tls (Startup.ApiRouter router)])
            (Startup.serve_https w)
      | Startup.SSLAuto =>
          start s w ("[INFO] activate https server in 'auto' mode on " +:+ tls)
            (fun s => mkServer (config s) (ctx s) (Some plain) (Some tls) (locked s))
            (fun router => [Startup.Go plain Startup.ChallengeRouter;
                            Startup.ListenAndServeTLS tls (Startup.ApiRouter router)])
            (Startup.serve_https w)
      | Startup.SSLOther => mkRun s [] (Ended (Returns None))
      end
  end.

Record stop : Type := mkStop {
  stopped : server;
  stop_trace : list Stop.event;
  stop_ending : ending unit
}.

(** [func (s *Server) Shutdown()] on the server object: it logs, then
    waits for the mutex; with the mutex free it runs as [Stop.Shutdown]
    on the two servers and leaves the mutex free again. *)
Definition Shutdown (s : server) (w : Stop.world) : stop :=
  if locked s then mkStop s [Stop.Log "[WARN] shutdown rest server"] Blocked
  else mkStop s (Stop.Shutdown (Stop.mkServers (httpServer s) (httpsServer s)) w)
         (Ended (Returns tt)).

(** The calls among the events. *)
Definition calls (tr : list event) : list Startup.event :=
  omap (fun e => match e with Call c => Some c | _ => None end) tr.

(** A listener is started. *)
Definition is_listener (e : Startup.event) : bool :=
  match e with
  | Startup.ListenAndServe _ _ | Startup.ListenAndServeTLS _ _
  | Startup.Go _ _ => true
  | _ => false
  end.

End Lifecycle.

(** ** Static web content *)

Module StaticWeb.

(** What [serveStaticWeb] registers on the router. *)
Inductive registration : Type :=
| GetRedirect (pattern target : string)   (* 301 to [target] *)
| GetContent (pattern : string).          (* the SPA handler *)

(** [path[len(path)-1]] *)
Fixpoint last_byte (s : string) : option ascii :=
  match s with
  | EmptyString => None
  | String c EmptyString => Some c
  | String _ rest => last_byte rest
  end.

(** [r.Get(pattern, h)]: the router panics on a pattern it does not
    accept (one that does not begin with a slash, for one); [valid] is its
    verdict on the pattern. *)
Definition Get (valid : string -> bool) (pattern : string) (reg : registration)
  : outcome (list registration) :=
  if valid pattern then Returns [reg]
  else Panics ("chi: invalid routing pattern '" +:+ pattern +:+ "'").

(** [func (s *Server) serveStaticWeb(r chi.Router, path, rootWebDir string)]:
    the registrations it makes.  [sub] is what [fs.Sub] returns; the
    source tests it, although an embedded file system gives no error
    there. *)
Definition serveStaticWeb (valid : string -> bool) (sub : error) (path : string)
  : outcome (list registration) :=
  match sub with
  | Some err => Panics (err +:+ ": failed to read web directory from embed FS")
  | None =>
      '(redirect, path) ←
        (if String.eqb path "/" then Returns ([], path)
         else match last_byte path with
              | None => Panics "index out of range [-1]"
              | Some c =>
                  if Ascii.eqb c "/" then Returns ([], path)
                  else
                    regs ← Get valid path (GetRedirect path (path +:+ "/"));
                    Returns (regs, path +:+ "/")
              end);
      content ← Get valid (path +:+ "*") (GetContent (path +:+ "*"));
      Returns (redirect ++ content)%list
  end.

(** The verdict of the router on the first byte of a pattern. *)
Definition leading_slash (pattern : string) : bool :=
  match pattern with
  | String c _ => Ascii.eqb c "/"
  | EmptyString => false
  end.

(** The embedded file system as the handler uses it. *)
Record webfs : Type := mkWebfs {
  Open : string -> error;       (* s.WebContentFS.Open(name) *)
  ParseFS : string -> error;    (* template.ParseFS(s.WebContentFS, name) *)
  Execute : error               (* tpl.Execute(w, nil) *)
}.

Inductive response : Type :=
| InternalServerError               (* 500: the index template is missing *)
| IndexPage (complete : bool)       (* 200 text/html, the index template *)
| FileServer (urlPath : string).    (* webFS.ServeHTTP(w, req) *)

(** The handler registered on the catch-all pattern. *)
Definition handler (fs : webfs) (rootWebDir urlPath : string) : response :=
  let contentPath := rootWebDir +:+ urlPath in
  match Open fs contentPath with
  | Some _ =>
      if negb (String.eqb urlPath "/") then
        match ParseFS fs (rootWebDir +:+ "/index.html") with
        | Some _ => InternalServerError
        | None =>
            match Execute fs with
            | Some _ => IndexPage false
            | None => IndexPage true
            end
        end
      else FileServer urlPath
  | None => FileServer urlPath
  end.

Definition pattern_of (r : registration) : string :=
  match r with
  | GetRedirect pattern _ => pattern
  | GetContent pattern => pattern
  end.

End StaticWeb.

(** ** Who may reach which handler *)

Module Access.

(** The role of the session is one of [roles], as [RBAC] compares. *)
Definition has_role (roles : list string) (u : token.User) : bool :=
  existsb (fun role => Chi.EqualFold role (token.Role u)) roles.

(** Handlers that need no session. *)
Definition public (h : Chi.handler) : bool :=
  match h with
  | Chi.authHandler | Chi.tokenAuth | Chi.staticWeb => true
  | _ => false
  end.

(** Handlers open to every authenticated session. *)
Definition any_role (h : Chi.handler) : bool :=
  match h with
  | Chi.events | Chi.health | Chi.catalogList => true
  | _ => public h
  end.


(** The middlewares every request meets first. *)
Definition global : list Chi.middleware :=
  [Chi.Throttle 1000; Chi.RealIP; Chi.Recoverer; Chi.Timeout 30;
   Chi.Ping; Chi.Cors; Chi.AccessLog].

End Access.

(** * Properties *)

(** ** Decimal rendering of ids *)

Example FormatInt10_samples :
  strconv.FormatInt10 7 = "7" /\ strconv.FormatInt10 0 = "0"
  /\ strconv.FormatInt10 (-120) = "-120"
  /\ strconv.FormatInt10 9223372036854775807 = "9223372036854775807".
Proof. repeat split. Qed.

Lemma FormatInt10_parse z :
  NilZero.int_of_string (strconv.FormatInt10 z) = Some (Z.to_int z).
Proof.
  apply NilZero.isi; destruct z; cbn; try discriminate;
    intros [= E]; revert E; apply DecimalPos.Unsigned.to_uint_nonnil.
Qed.

(** The string id identifies the numeric one. *)
Lemma FormatInt10_inj a b :
  strconv.FormatInt10 a = strconv.FormatInt10 b -> a = b.
Proof.
  intros H. apply DecimalZ.to_int_inj.
  pose proof (FormatInt10_parse a) as Ha.
  rewrite H, FormatInt10_parse in Ha. congruence.
Qed.

(** ** Basic authentication, claims update and validation *)

Section ServerFacts.

Variable GetUser : string -> store.User * error.
Variable ComparePassword : string -> string -> bool.

Lemma BasicAuthCheckerFn_lookup_failed name password u e :
  GetUser name = (u, Some e) ->
  BasicAuthCheckerFn GetUser ComparePassword name password = Returns (false, token.zero, None).
Proof. intros Hget. unfold BasicAuthCheckerFn. now rewrite Hget. Qed.

Lemma BasicAuthCheckerFn_disabled name password u :
  GetUser name = (u, None) -> store.Disabled u = true ->
  BasicAuthCheckerFn GetUser ComparePassword name password
  = Returns (false, token.zero, Some (disabled_error name)).
Proof.
  intros Hget Hdis. unfold BasicAuthCheckerFn. now rewrite Hget, Hdis.
Qed.

Lemma BasicAuthCheckerFn_mismatch name password u :
  GetUser name = (u, None) -> store.Disabled u = false ->
  ComparePassword (store.Password u) password = false ->
  BasicAuthCheckerFn GetUser ComparePassword name password = Returns (false, token.zero, None).
Proof.
  intros Hget Hdis Hpw. unfold BasicAuthCheckerFn.
  now rewrite Hget, Hdis, Hpw.
Qed.

Lemma BasicAuthCheckerFn_match name password u :
  GetUser name = (u, None) -> store.Disabled u = false ->
  ComparePassword (store.Password u) password = true ->
  BasicAuthCheckerFn GetUser ComparePassword name password = Returns (true, granted u, None).
Proof.
  intros Hget Hdis Hpw. unfold BasicAuthCheckerFn.
  rewrite Hget, Hdis, Hpw. cbn. unfold granted.
  now rewrite insert_empty.
Qed.

Lemma BasicAuthCheckerFn_cases name password :
  exists r, BasicAuthCheckerFn GetUser ComparePassword name password = Returns r /\ auth_case GetUser ComparePassword name password r.
Proof.
  destruct (GetUser name) as [u [e|]] eqn:Hget.
  - eexists; split; [by eapply BasicAuthCheckerFn_lookup_failed | by econstructor 1].
  - destruct (store.Disabled u) eqn:Hdis.
    + eexists; split; [by eapply BasicAuthCheckerFn_disabled | by econstructor 2].
    + destruct (ComparePassword (store.Password u) password) eqn:Hpw.
      * eexists; split; [by eapply BasicAuthCheckerFn_match | by econstructor 4].
      * eexists; split; [by eapply BasicAuthCheckerFn_mismatch | by econstructor 3].
Qed.

Lemma ClaimUpdateFn_lookup_failed h claims p tu u e :
  token.User_ claims = Some p -> h !! p = Some tu ->
  GetUser (token.Name tu) = (u, Some e) ->
  ClaimUpdateFn GetUser h claims = Returns (h, claims).
Proof.
  intros Hp Hh Hget. unfold ClaimUpdateFn, deref.
  rewrite Hp, Hh. cbn. now rewrite Hget.
Qed.

Lemma ClaimUpdateFn_found h claims p tu u :
  token.User_ claims = Some p -> h !! p = Some tu ->
  GetUser (token.Name tu) = (u, None) ->
  ClaimUpdateFn GetUser h claims = Returns (<[p := refreshed tu u]> h, claims).
Proof.
  intros Hp Hh Hget. unfold ClaimUpdateFn, deref.
  rewrite Hp, Hh. cbn. rewrite Hget.
  destruct tu as [n i pic aud ip em [attrs|] role]; reflexivity.
Qed.

Lemma Validate_disabled_attr h aud claims p tu :
  token.User_ claims = Some p -> h !! p = Some tu ->
  token.mapaccess (token.Attributes tu) "disabled" = Some (token.VBool true) ->
  Validate h aud claims = Returns false.
Proof.
  intros Hp Hh Hattr. unfold Validate, deref. rewrite Hp, Hh. cbn.
  unfold token.BoolAttr. now rewrite Hattr.
Qed.

Lemma refreshed_disabled tu u :
  token.mapaccess (token.Attributes (refreshed tu u)) "disabled"
  = Some (token.VBool (store.Disabled u)).
Proof. cbn. rewrite lookup_insert_ne by done. apply lookup_insert_eq. Qed.

Lemma refreshed_uid tu u :
  token.mapaccess (token.Attributes (refreshed tu u)) "uid"
  = Some (token.VInt64 (store.ID u)).
Proof. cbn. apply lookup_insert_eq. Qed.

Lemma refreshed_other tu u k :
  k <> "disabled" -> k <> "uid" ->
  token.mapaccess (token.Attributes (refreshed tu u)) k
  = token.mapaccess (token.Attributes tu) k.
Proof.
  intros Hd Hu. cbn. rewrite !lookup_insert_ne by done.
  destruct (token.Attributes tu); [done | apply lookup_empty].
Qed.

(** C1: a user whose [Disabled] flag is set in the store is rejected by
    [BasicAuthCheckerFn] for every password, with [ok = false] and a non-nil
    error (the disabled-account error, where bad credentials give a nil
    one); [Validate] returns false for any claims whose user carries the
    boolean attribute [disabled = true]; and claims refreshed by
    [ClaimUpdateFn] for such a user carry that attribute, so they never
    validate. *)
Theorem C1_disabled_user_is_rejected (name : string) (u : store.User) :
  GetUser name = (u, None) -> store.Disabled u = true ->
  (forall password,
      BasicAuthCheckerFn GetUser ComparePassword name password
      = Returns (false, token.zero, Some (disabled_error name)))
  /\ (forall (h : heap) aud claims p tu,
         token.User_ claims = Some p -> h !! p = Some tu ->
         token.mapaccess (token.Attributes tu) "disabled" = Some (token.VBool true) ->
         Validate h aud claims = Returns false)
  /\ (forall (h : heap) aud claims p tu,
         token.User_ claims = Some p -> h !! p = Some tu ->
         token.Name tu = name ->
         exists h', ClaimUpdateFn GetUser h claims = Returns (h', claims)
                    /\ Validate h' aud claims = Returns false).
Proof.
  intros Hget Hdis. split; [| split].
  - intros password. by apply BasicAuthCheckerFn_disabled with u.
  - intros h aud claims p tu. apply Validate_disabled_attr.
  - intros h aud claims p tu Hp Hh Hname. subst name.
    eexists. split; [by eapply ClaimUpdateFn_found |].
    eapply Validate_disabled_attr; [done | apply lookup_insert_eq |].
    by rewrite refreshed_disabled, Hdis.
Qed.

(** C2: [BasicAuthCheckerFn] returns [ok = true] exactly when the store
    lookup succeeds, the user found is not disabled and [ComparePassword]
    accepts the password against the stored hash; the [token.User] returned
    with [ok = true] carries the stored name and role, the numeric id under
    the attribute [uid] and its decimal rendering as [ID], and nothing
    else. *)
Theorem C2_basic_auth_accepts_iff (name password : string) :
  exists ok claim err,
    BasicAuthCheckerFn GetUser ComparePassword name password = Returns (ok, claim, err)
    /\ (ok = true <->
        (GetUser name).2 = None
        /\ store.Disabled (GetUser name).1 = false
        /\ ComparePassword (store.Password (GetUser name).1) password = true)
    /\ (ok = true ->
        let u := (GetUser name).1 in
        token.Name claim = store.Name u
        /\ token.Role claim = store.Role u
        /\ token.Attributes claim = Some {[ "uid" := token.VInt64 (store.ID u) ]}
        /\ token.ID claim = strconv.FormatInt10 (store.ID u)
        /\ claim = granted u).
Proof.
  destruct (BasicAuthCheckerFn_cases name password) as [r [Hr Hcase]].
  destruct Hcase as [u e Hget | u Hget Hdis | u Hget Hdis Hpw | u Hget Hdis Hpw];
    do 3 eexists; (split; [exact Hr |]); rewrite Hget; cbn.
  - split; [split; [done | by intros [? _]] | done].
  - split; [split; [done | intros (_ & ? & _); congruence] | done].
  - split; [split; [done | intros (_ & _ & ?); congruence] | done].
  - split; [by split | done].
Qed.

(** C8 (amended): [BasicAuthCheckerFn] returns a non-nil error only for a
    disabled account; when the store lookup fails, or the account is not
    disabled and the password does not match the stored hash, it returns
    [ok = false], the empty claim and a nil error. *)
Theorem C8_error_only_for_disabled (name password : string) :
  (forall ok claim msg,
      BasicAuthCheckerFn GetUser ComparePassword name password = Returns (ok, claim, Some msg) ->
      (GetUser name).2 = None /\ store.Disabled (GetUser name).1 = true)
  /\ ((GetUser name).2 <> None ->
      BasicAuthCheckerFn GetUser ComparePassword name password = Returns (false, token.zero, None))
  /\ ((GetUser name).2 = None ->
      store.Disabled (GetUser name).1 = false ->
      ComparePassword (store.Password (GetUser name).1) password = false ->
      BasicAuthCheckerFn GetUser ComparePassword name password = Returns (false, token.zero, None)).
Proof.
  destruct (GetUser name) as [u err] eqn:Hget. cbn. split; [| split].
  - intros ok claim msg Hr.
    destruct (BasicAuthCheckerFn_cases name password) as [r [Hr' Hcase]].
    rewrite Hr in Hr'. injection Hr' as <-.
    inversion Hcase; subst; rewrite Hget in *; by simplify_eq.
  - intros Herr. destruct err as [e|]; [| done].
    by eapply BasicAuthCheckerFn_lookup_failed.
  - intros -> Hdis Hpw. by eapply BasicAuthCheckerFn_mismatch.
Qed.

(** C9: when the store lookup of the claim's user name fails,
    [ClaimUpdateFn] returns the claims and the user they point to
    unchanged; when it succeeds, the claims struct is returned as it came
    and, in the user it points to, only the role and the attributes
    [disabled] and [uid] are written: every other field, every other
    attribute and every other object keep their values. *)
Theorem C9_ClaimUpdateFn_frame (h : heap) (claims : token.Claims)
    (p : token.ptr) (tu : token.User) :
  token.User_ claims = Some p -> h !! p = Some tu ->
  ((GetUser (token.Name tu)).2 <> None ->
   ClaimUpdateFn GetUser h claims = Returns (h, claims))
  /\ ((GetUser (token.Name tu)).2 = None ->
      let u := (GetUser (token.Name tu)).1 in
      exists tu',
        ClaimUpdateFn GetUser h claims = Returns (<[p := tu']> h, claims)
        /\ token.Role tu' = store.Role u
        /\ token.mapaccess (token.Attributes tu') "disabled"
           = Some (token.VBool (store.Disabled u))
        /\ token.mapaccess (token.Attributes tu') "uid"
           = Some (token.VInt64 (store.ID u))
        /\ token.Name tu' = token.Name tu
        /\ token.ID tu' = token.ID tu
        /\ token.Picture tu' = token.Picture tu
        /\ token.Audience tu' = token.Audience tu
        /\ token.IP tu' = token.IP tu
        /\ token.Email tu' = token.Email tu
        /\ (forall k, k <> "disabled" -> k <> "uid" ->
              token.mapaccess (token.Attributes tu') k
              = token.mapaccess (token.Attributes tu) k)
        /\ (forall q, q <> p -> (<[p := tu']> h) !! q = h !! q)).
Proof.
  intros Hp Hh. destruct (GetUser (token.Name tu)) as [u err] eqn:Hget. cbn.
  split.
  - intros Herr. destruct err as [e|]; [| done].
    by eapply ClaimUpdateFn_lookup_failed.
  - intros ->. exists (refreshed tu u).
    split; [by eapply ClaimUpdateFn_found |].
    split; [done |]. split; [apply refreshed_disabled |].
    split; [apply refreshed_uid |]. do 6 (split; [done |]).
    split; [intros k; apply refreshed_other |].
    intros q Hq. by apply lookup_insert_ne.
Qed.

(** C10: [Check] returns the [(ok, err)] projection of what
    [BasicAuthCheckerFn] returns for the same user and password. *)
Theorem C10_Check_projects_BasicAuthCheckerFn (name password : string) :
  exists ok claim err,
    BasicAuthCheckerFn GetUser ComparePassword name password = Returns (ok, claim, err)
    /\ Check GetUser ComparePassword name password = Returns (ok, err).
Proof.
  destruct (BasicAuthCheckerFn_cases name password) as [[[ok claim] err] [Hr _]].
  exists ok, claim, err. split; [exact Hr |].
  unfold Check. now rewrite Hr.
Qed.

End ServerFacts.

Lemma C1_witness :
  Sample.GetUser "mallory" = (store.mkUser 9 "mallory" "h:evil" "user" true, None)
  /\ BasicAuthCheckerFn Sample.GetUser Sample.ComparePassword "mallory" "evil"
     = Returns (false, token.zero, Some "User with login 'mallory' disabled").
Proof.
  split; [reflexivity |].
  apply (C1_disabled_user_is_rejected Sample.GetUser Sample.ComparePassword
           "mallory" _ eq_refl eq_refl).
Defined.

Lemma C2_witness :
  exists claim,
    BasicAuthCheckerFn Sample.GetUser Sample.ComparePassword "alice" "wonder"
    = Returns (true, claim, None)
    /\ token.Name claim = "alice" /\ token.Role claim = "admin"
    /\ token.ID claim = "7".
Proof.
  destruct (C2_basic_auth_accepts_iff Sample.GetUser Sample.ComparePassword
              "alice" "wonder") as (ok & claim & err & Hr & Hiff & Hclaim).
  assert (Hok : ok = true) by (apply Hiff; repeat split; reflexivity).
  destruct (Hclaim Hok) as (Hn & Hrole & _ & Hid & _).
  exists claim. rewrite Hr, Hn, Hrole, Hid.
  vm_compute in Hr. injection Hr as <- _ <-.
  repeat split; reflexivity.
Defined.

(** C8 as stated fails: for a disabled account and a password that does not
    match the stored hash, the error is not nil. *)
Lemma C8_counterexample :
  ~ (forall name password,
        (Sample.GetUser name).2 <> None
        \/ Sample.ComparePassword (store.Password (Sample.GetUser name).1) password
           = false ->
        BasicAuthCheckerFn Sample.GetUser Sample.ComparePassword name password
        = Returns (false, token.zero, None)).
Proof.
  intros H. specialize (H "mallory" "guess" (or_intror eq_refl)).
  vm_compute in H. discriminate H.
Qed.

Lemma C8_witness :
  (Sample.GetUser "alice").2 = None
  /\ BasicAuthCheckerFn Sample.GetUser Sample.ComparePassword "alice" "guess"
     = Returns (false, token.zero, None).
Proof.
  split; [reflexivity |].
  apply (C8_error_only_for_disabled Sample.GetUser Sample.ComparePassword
           "alice" "guess"); reflexivity.
Defined.

Lemma C9_witness :
  let h : heap := {[ 1%positive := Sample.user "alice" ]} in
  h !! 1%positive = Some (Sample.user "alice")
  /\ exists tu',
       ClaimUpdateFn Sample.GetUser h (Sample.claims 1%positive)
       = Returns (<[1%positive := tu']> h, Sample.claims 1%positive)
       /\ token.Role tu' = "admin" /\ token.Name tu' = "alice".
Proof.
  intros h. split; [reflexivity |].
  destruct (C9_ClaimUpdateFn_frame Sample.GetUser h (Sample.claims 1%positive) 1%positive
              (Sample.user "alice") eq_refl eq_refl) as [_ Hfound].
  destruct (Hfound eq_refl) as (tu' & Hr & Hrole & _ & _ & Hname & _).
  exists tu'. repeat split; assumption.
Defined.

(** ** The guards in front of the registry routes *)

Example matches_samples :
  Chi.matches "/api/v1/registry/catalog" "/api/v1/registry/catalog" = true
  /\ Chi.matches "/api/v1/registry/catalog" "/api/v1/registry/catalog/blobs" = false
  /\ Chi.matches "/api/v1/registry/catalog/*" "/api/v1/registry/catalog/sha256:aa" = true
  /\ Chi.matches "/api/v1/registry/catalog/*" "/api/v1/registry/catalog" = false
  /\ Chi.matches "/api/v1/users/{id}" "/api/v1/users/12" = true
  /\ Chi.matches "/*" "/static/js/main.js" = true.
Proof. repeat split. Qed.

(** The registry routes as registered: pattern, method and guards. *)
Example registry_endpoints :
  List.filter
    (fun e => match Chi.ep_handler e with
              | Chi.catalogList | Chi.imageConfig
              | Chi.syncRepositories | Chi.deleteDigest => true
              | _ => false
              end)
    (Chi.endpoints Chi.router)
  = let common := [Chi.Throttle 1000; Chi.RealIP; Chi.Recoverer; Chi.Timeout 30;
                   Chi.Ping; Chi.Cors; Chi.AccessLog; Chi.LimitHandler 10;
                   Chi.Trace; Chi.NoCache] in
    [ Chi.mkEndpoint (Some Chi.GET) "/api/v1/registry/catalog"
        (common ++ [Chi.Auth; Chi.NoCache])%list Chi.catalogList;
      Chi.mkEndpoint (Some Chi.GET) "/api/v1/registry/catalog/blobs"
        (common ++ [Chi.Auth; Chi.NoCache; Chi.RBAC ["admin"; "manager"]])%list
        Chi.imageConfig;
      Chi.mkEndpoint (Some Chi.GET) "/api/v1/registry/sync"
        (common ++ [Chi.RBAC ["admin"]])%list Chi.syncRepositories;
      Chi.mkEndpoint (Some Chi.DELETE) "/api/v1/registry/catalog/*"
        (common ++ [Chi.RBAC ["admin"]])%list Chi.deleteDigest ].
Proof. reflexivity. Qed.

Lemma serves_chain env r e m :
  Chi.serves env r e = true -> In m (Chi.ep_chain e) ->
  Chi.passes env r m = true.
Proof.
  unfold Chi.serves. intros Hs Hin.
  apply andb_prop in Hs as [_ Hchain].
  rewrite forallb_forall in Hchain. by apply Hchain.
Qed.

(** A role check admits no request without a session. *)
Lemma passes_RBAC_Auth env r roles :
  Chi.passes env r (Chi.RBAC roles) = true -> Chi.passes env r Chi.Auth = true.
Proof.
  cbn. destruct (Chi.req_user r); [intros _ | discriminate].
  by apply bool_decide_eq_true.
Qed.

Lemma router_endpoints e :
  e ∈ Chi.endpoints Chi.router ->
  In e ltac:(let l := eval vm_compute in (Chi.endpoints Chi.router) in exact l).
Proof. intros Hin. by apply list_elem_of_In in Hin. Qed.

(** C3 (amended): the handlers of the four registry routes run only behind
    these guards.  [GET /registry/catalog] needs an authenticated session
    and no particular role; [GET /registry/catalog/blobs] needs a session
    and the role admin or manager; [GET /registry/sync] and
    [DELETE /registry/catalog/*] need the role admin, whose check includes
    the session check. *)
Theorem C3_registry_routes_guards (env : Chi.middleware -> bool)
    (r : Chi.request) (e : Chi.endpoint) :
  e ∈ Chi.endpoints Chi.router -> Chi.serves env r e = true ->
  match Chi.ep_handler e with
  | Chi.catalogList =>
      Chi.ep_method e = Some Chi.GET
      /\ Chi.ep_pattern e = "/api/v1/registry/catalog"
      /\ Chi.passes env r Chi.Auth = true
  | Chi.imageConfig =>
      Chi.ep_method e = Some Chi.GET
      /\ Chi.ep_pattern e = "/api/v1/registry/catalog/blobs"
      /\ Chi.passes env r Chi.Auth = true
      /\ Chi.passes env r (Chi.RBAC ["admin"; "manager"]) = true
  | Chi.syncRepositories =>
      Chi.ep_method e = Some Chi.GET
      /\ Chi.ep_pattern e = "/api/v1/registry/sync"
      /\ Chi.passes env r Chi.Auth = true
      /\ Chi.passes env r (Chi.RBAC ["admin"]) = true
  | Chi.deleteDigest =>
      Chi.ep_method e = Some Chi.DELETE
      /\ Chi.ep_pattern e = "/api/v1/registry/catalog/*"
      /\ Chi.passes env r Chi.Auth = true
      /\ Chi.passes env r (Chi.RBAC ["admin"]) = true
  | _ => True
  end.
Proof.
  intros Hin Hs. apply router_endpoints in Hin.
  pose proof (fun m => serves_chain env r e m Hs) as Hchain. clear Hs.
  cbv beta in Hin.
  repeat (destruct Hin as [<- | Hin]; [cbn [Chi.ep_handler]; try exact I |]);
    try contradiction.
  - (* catalogList *)
    repeat split. apply Hchain. cbn. tauto.
  - (* imageConfig *)
    repeat split; apply Hchain; cbn; tauto.
  - (* syncRepositories *)
    assert (Chi.passes env r (Chi.RBAC ["admin"]) = true) as Hrole
      by (apply Hchain; cbn; tauto).
    repeat split; [by eapply passes_RBAC_Auth | exact Hrole].
  - (* deleteDigest *)
    assert (Chi.passes env r (Chi.RBAC ["admin"]) = true) as Hrole
      by (apply Hchain; cbn; tauto).
    repeat split; [by eapply passes_RBAC_Auth | exact Hrole].
Qed.

(** C3 as stated fails: a session of role [user] reaches the handler of
    [GET /registry/catalog], which no role check guards. *)
Lemma C3_counterexample :
  ~ (forall env r e,
        e ∈ Chi.endpoints Chi.router -> Chi.serves env r e = true ->
        match Chi.ep_handler e with
        | Chi.catalogList | Chi.imageConfig =>
            Chi.passes env r Chi.Auth = true
            /\ Chi.passes env r (Chi.RBAC ["admin"; "manager"]) = true
        | Chi.syncRepositories | Chi.deleteDigest =>
            Chi.passes env r Chi.Auth = true
            /\ Chi.passes env r (Chi.RBAC ["admin"]) = true
        | _ => True
        end).
Proof.
  intros H.
  specialize (H (fun _ => true)
                (Chi.mkRequest Chi.GET "/api/v1/registry/catalog"
                   (Some (token.SetRole (Sample.user "carol") "user")))
                (Chi.mkEndpoint (Some Chi.GET) "/api/v1/registry/catalog"
                   [Chi.Throttle 1000; Chi.RealIP; Chi.Recoverer; Chi.Timeout 30;
                    Chi.Ping; Chi.Cors; Chi.AccessLog; Chi.LimitHandler 10;
                    Chi.Trace; Chi.NoCache; Chi.Auth; Chi.NoCache]
                   Chi.catalogList)).
  cbn [Chi.ep_handler] in H.
  destruct H as [_ Hrole].
  - apply list_elem_of_In. vm_compute. tauto.
  - reflexivity.
  - vm_compute in Hrole. discriminate Hrole.
Qed.

Lemma C3_witness :
  let r := Chi.mkRequest Chi.DELETE "/api/v1/registry/catalog/sha256:aa"
             (Some (token.SetRole (Sample.user "alice") "Admin")) in
  let e := Chi.mkEndpoint (Some Chi.DELETE) "/api/v1/registry/catalog/*"
             [Chi.Throttle 1000; Chi.RealIP; Chi.Recoverer; Chi.Timeout 30;
              Chi.Ping; Chi.Cors; Chi.AccessLog; Chi.LimitHandler 10;
              Chi.Trace; Chi.NoCache; Chi.RBAC ["admin"]]
             Chi.deleteDigest in
  Chi.serves (fun _ => true) r e = true
  /\ Chi.passes (fun _ => true) r Chi.Auth = true
  /\ Chi.passes (fun _ => true) r (Chi.RBAC ["admin"]) = true.
Proof.
  intros r e. split; [reflexivity |].
  assert (Hin : e ∈ Chi.endpoints Chi.router)
    by (apply list_elem_of_In; vm_compute; tauto).
  exact (proj2 (proj2 (C3_registry_routes_guards (fun _ => true) r e Hin eq_refl))).
Defined.

(** ** Start-up *)

(** C4 (amended): when [Run] starts a server (a registry service is set and
    the SSL mode is one the switch handles), the credential file is
    synchronised exactly once, before any listener serves the API routes.
    A failure of that synchronisation is raised as the panic
    [failed to update htpasswd: ...] out of [Run]: the maintenance tasks
    are not started and no listener serves the routes.  When it succeeds
    (and the embedded web directory is readable) the routes are served by
    exactly one listener. *)
Theorem C4_startup_sync (s : Startup.Server) (w : Startup.world)
    (rs : Startup.registryInterface) :
  Startup.RegistryService s = Some rs ->
  Startup.SSLMode (Startup.SSLConfig_ s) <> Startup.SSLOther ->
  let run := Startup.Run s w in
  Startup.count Startup.is_sync (Startup.trace run) = 1%nat
  /\ (exists pre post,
         Startup.trace run = (pre ++ Startup.CallUpdateHtpasswd :: post)%list
         /\ Startup.count Startup.is_serving pre = 0%nat)
  /\ (forall err,
         Startup.UpdateHtpasswd rs = Some err ->
         Startup.result run = Panics ("failed to update htpasswd: " +:+ err)
         /\ Startup.count Startup.is_serving (Startup.trace run) = 0%nat
         /\ ~ In (Startup.CallRepositoriesMaintenance
                    (Startup.GarbageCollectorInterval s)) (Startup.trace run))
  /\ (Startup.UpdateHtpasswd rs = None -> Startup.fs_Sub w = None ->
      Startup.count Startup.is_serving (Startup.trace run) = 1%nat
      /\ exists e, Startup.result run = Returns e).
Proof.
  intros Hrs Hmode run. subst run.
  destruct s as [hostname listen port [mode sslport cert key] registry interval].
  cbn in Hrs, Hmode. subst registry.
  destruct rs as [sync]. destruct w as [sub http https].
  unfold Startup.Run, Startup.routes, Startup.serveStaticWeb.
  cbn [Startup.RegistryService Startup.SSLConfig_ Startup.SSLMode
       Startup.UpdateHtpasswd Startup.fs_Sub Startup.GarbageCollectorInterval
       Startup.Listen Startup.Port Startup.SSLPort
       Startup.serve_http Startup.serve_https].
  destruct mode; [| | | done];
    destruct sync as [err|], sub as [suberr|];
    (split; [reflexivity |]);
    (split; [by eexists [_], _ |]);
    split;
    first
      [ intros ? Herr; discriminate Herr
      | intros Hsync; discriminate Hsync
      | intros _ Hsub; discriminate Hsub
      | intros err' Herr; injection Herr as <-; cbn;
        split; [reflexivity |]; split; [reflexivity |];
        intros Hin; cbn in Hin; intuition discriminate
      | intros _ _; cbn; split; [reflexivity | by eexists] ].
Qed.

(** C4 as stated fails: a failed synchronisation at start-up ends [Run]
    with a panic instead of an error value, and nothing is served. *)
Lemma C4_counterexample :
  ~ (forall s w rs err,
        Startup.RegistryService s = Some rs ->
        Startup.UpdateHtpasswd rs = Some err ->
        (exists e, Startup.result (Startup.Run s w) = Returns e)
        /\ Startup.count Startup.is_serving (Startup.trace (Startup.Run s w)) = 1%nat).
Proof.
  intros H.
  destruct (H (Sample.server (Some "permission denied")) Sample.world
              _ _ eq_refl eq_refl) as [[e He] _].
  vm_compute in He. discriminate He.
Qed.

Lemma C4_witness :
  Startup.UpdateHtpasswd (Startup.mkRegistry (Some "permission denied"))
  = Some "permission denied"
  /\ Startup.result (Startup.Run (Sample.server (Some "permission denied")) Sample.world)
     = Panics "failed to update htpasswd: permission denied".
Proof.
  split; [reflexivity |].
  assert (Hmode : Startup.SSLMode (Startup.SSLConfig_
                     (Sample.server (Some "permission denied")))
                  <> Startup.SSLOther) by discriminate.
  destruct (C4_startup_sync (Sample.server (Some "permission denied")) Sample.world
              _ eq_refl Hmode) as (_ & _ & Hfail & _).
  exact (proj1 (Hfail "permission denied" eq_refl)).
Defined.

(** ** The maintenance scheduler *)

Lemma scheduler_invariant interval s e :
  Maintenance.active s = match Maintenance.guard s with
                         | Maintenance.Idle => 0%nat
                         | Maintenance.Running => 1%nat
                         end ->
  let s' := Maintenance.RepositoriesMaintenance interval s e in
  Maintenance.active s' = match Maintenance.guard s' with
                          | Maintenance.Idle => 0%nat
                          | Maintenance.Running => 1%nat
                          end.
Proof.
  intros Hinv. destruct s as [[] active started skipped failures], e as [|err];
    cbn in *; subst; try reflexivity; by destruct (interval <=? 0)%Z.
Qed.

Lemma scheduler_reachable interval evs s :
  Maintenance.active s = match Maintenance.guard s with
                         | Maintenance.Idle => 0%nat
                         | Maintenance.Running => 1%nat
                         end ->
  let s' := fold_left (Maintenance.RepositoriesMaintenance interval) evs s in
  Maintenance.active s' = match Maintenance.guard s' with
                          | Maintenance.Idle => 0%nat
                          | Maintenance.Running => 1%nat
                          end.
Proof.
  revert s. induction evs as [|e evs IH]; intros s Hinv; [exact Hinv |].
  cbn. apply IH. by apply scheduler_invariant.
Qed.

(** C5: after any sequence of timer ticks and run completions at most one
    run is active; a tick that fires while a run is in progress starts
    nothing and records no error: it is counted as skipped and not kept for
    later, so that when the run ends the scheduler is idle again. *)
Theorem C5_at_most_one_run (interval : Z) (evs : list Maintenance.event) :
  let s := Maintenance.after interval evs in
  (Maintenance.active s <= 1)%nat
  /\ (Maintenance.guard s = Maintenance.Running ->
      let s' := Maintenance.RepositoriesMaintenance interval s Maintenance.Tick in
      Maintenance.guard s' = Maintenance.Running
      /\ Maintenance.active s' = 1%nat
      /\ Maintenance.started s' = Maintenance.started s
      /\ Maintenance.skipped s' = S (Maintenance.skipped s)
      /\ Maintenance.failures s' = Maintenance.failures s
      /\ forall err,
           let s'' := Maintenance.RepositoriesMaintenance interval s'
                        (Maintenance.Finished err) in
           Maintenance.guard s'' = Maintenance.Idle
           /\ Maintenance.active s'' = 0%nat
           /\ Maintenance.started s'' = Maintenance.started s).
Proof.
  intros s.
  assert (Hinv : Maintenance.active s
                 = match Maintenance.guard s with
                   | Maintenance.Idle => 0%nat
                   | Maintenance.Running => 1%nat
                   end) by (by apply scheduler_reachable).
  assert (Hon : Maintenance.guard s = Maintenance.Running -> (interval <=? 0)%Z = false).
  { subst s. unfold Maintenance.after.
    assert (Hidle : forall evs s0, (interval <=? 0)%Z = true ->
              Maintenance.guard s0 = Maintenance.Idle ->
              Maintenance.guard
                (fold_left (Maintenance.RepositoriesMaintenance interval) evs s0)
              = Maintenance.Idle).
    { clear. induction evs as [|e evs IH]; intros s0 Hoff Hg; [exact Hg |].
      cbn. apply IH; [exact Hoff |].
      destruct e; cbn; rewrite ?Hoff, ?Hg; by rewrite ?Hg. }
    intros Hrun. destruct (interval <=? 0)%Z eqn:Hoff; [| done].
    rewrite (Hidle evs Maintenance.init eq_refl eq_refl) in Hrun. discriminate. }
  split.
  - rewrite Hinv. destruct (Maintenance.guard s); lia.
  - intros Hrun. specialize (Hon Hrun). cbn. rewrite Hon, Hrun. cbn.
    rewrite Hinv, Hrun. repeat split.
Qed.

Lemma C5_witness :
  let evs := [Maintenance.Tick] in
  Maintenance.guard (Maintenance.after 60 evs) = Maintenance.Running
  /\ Maintenance.skipped
       (Maintenance.RepositoriesMaintenance 60 (Maintenance.after 60 evs)
          Maintenance.Tick) = 1%nat.
Proof.
  intros evs. split; [reflexivity |].
  destruct (C5_at_most_one_run 60 evs) as [_ Hskip].
  destruct (Hskip eq_refl) as (_ & _ & _ & Hskipped & _).
  exact Hskipped.
Defined.

(** ** The registry client *)

Lemma tag_digest_insert (up : Registry.upstream) repoName repo tag :
  Registry.tag_digest (<[repoName := repo]> up) repoName tag
  = Registry.tags repo !! tag.
Proof. unfold Registry.tag_digest. by rewrite lookup_insert_eq. Qed.

Lemma DeleteTag_held (up : Registry.upstream) repoName repo digest :
  up !! repoName = Some repo -> digest ∈ Registry.manifests repo ->
  Registry.DeleteTag up repoName digest
  = (<[repoName :=
         Registry.mkRepository (Registry.manifests repo ∖ {[digest]})
           (filter (fun kv => kv.2 ≠ digest) (Registry.tags repo))]> up, None).
Proof.
  intros Hrepo Hin. unfold Registry.DeleteTag. rewrite Hrepo.
  by rewrite bool_decide_eq_true_2.
Qed.

(** C6: deletion is by digest only.  [DeleteTag] on a digest the repository
    holds removes every tag that referenced it and leaves the tags of other
    digests alone; a name that is not the digest of a held manifest (a tag
    name) is refused and changes nothing; deleting a tag is resolving it to
    its digest with the manifest fetch and deleting that digest. *)
Theorem C6_delete_by_digest (up : Registry.upstream) (repoName : string)
    (repo : Registry.repository) :
  up !! repoName = Some repo ->
  (forall digest, digest ∈ Registry.manifests repo ->
     exists up',
       Registry.DeleteTag up repoName digest = (up', None)
       /\ (forall tag, Registry.tag_digest up' repoName tag <> Some digest)
       /\ (forall tag, tag ∈ Registry.tags_of up repoName digest ->
                       Registry.tag_digest up' repoName tag = None)
       /\ (forall tag d, d <> digest ->
             Registry.tag_digest up repoName tag = Some d ->
             Registry.tag_digest up' repoName tag = Some d))
  /\ (forall name, name ∉ Registry.manifests repo ->
        Registry.DeleteTag up repoName name = (up, Some Registry.NotFound))
  /\ (forall tag digest, Registry.tags repo !! tag = Some digest ->
        Registry.Manifest up repoName tag = inl digest
        /\ Registry.delete_tag up repoName tag
           = Registry.DeleteTag up repoName digest).
Proof.
  intros Hrepo. split; [| split].
  - intros digest Hin. eexists. split; [by apply DeleteTag_held |].
    split; [| split].
    + intros tag. rewrite tag_digest_insert. cbn.
      intros Hlook. apply map_lookup_filter_Some in Hlook as [_ Hne]. by apply Hne.
    + intros tag. unfold Registry.tags_of. rewrite Hrepo.
      rewrite elem_of_dom. intros [d Hd].
      apply map_lookup_filter_Some in Hd as [Hd Heq]. cbn in Heq. subst d.
      rewrite tag_digest_insert. cbn.
      apply map_lookup_filter_None. right. intros d Hd'.
      cbn. rewrite Hd in Hd'. injection Hd' as <-. by intros Hne.
    + intros tag d Hne. unfold Registry.tag_digest at 1. rewrite Hrepo. cbn.
      intros Hd. rewrite tag_digest_insert. cbn.
      by apply map_lookup_filter_Some.
  - intros name Hnot. unfold Registry.DeleteTag. rewrite Hrepo.
    by rewrite bool_decide_eq_false_2.
  - intros tag digest Htag.
    assert (Hm : Registry.Manifest up repoName tag = inl digest)
      by (unfold Registry.Manifest; by rewrite Hrepo, Htag).
    split; [exact Hm |]. unfold Registry.delete_tag. by rewrite Hm.
Qed.

Lemma C6_witness :
  exists repo,
    Sample.registry !! "team/app" = Some repo
    /\ Registry.tags repo !! "latest" = Some "sha256:aa"
    /\ Registry.delete_tag Sample.registry "team/app" "latest"
       = Registry.DeleteTag Sample.registry "team/app" "sha256:aa".
Proof.
  eexists. split; [reflexivity |]. split; [reflexivity |].
  refine (proj2 (proj2 (proj2 (C6_delete_by_digest Sample.registry "team/app" _ eq_refl))
                   "latest" "sha256:aa" eq_refl)).
Defined.











(** Walking the sample catalog page by page with the cursor. *)
Example catalog_walk :
  Registry.Catalog Sample.catalog "2" "" = inl (Registry.mkPage ["a"; "b"] true)
  /\ Registry.Catalog Sample.catalog "2" "b" = inl (Registry.mkPage ["c"] false).
Proof. split; reflexivity. Qed.

(** * Further properties of the server *)

(** ** Authentication callbacks *)

Section ServerMore.

Variable GetUser : string -> store.User * error.
Variable ComparePassword : string -> string -> bool.

(** X1: [BasicAuthCheckerFn] never hands out user data with a refusal:
    whenever [ok] is false the returned [token.User] is the zero value,
    and whenever an error is returned [ok] is false; a success carries no
    error. *)
Theorem X1_refusal_carries_no_user (name password : string)
    (ok : bool) (claim : token.User) (err : error) :
  BasicAuthCheckerFn GetUser ComparePassword name password
  = Returns (ok, claim, err) ->
  (ok = false -> claim = token.zero)
  /\ (err <> None -> ok = false)
  /\ (ok = true -> err = None /\ claim <> token.zero).
Proof.
  intros Hr.
  destruct (BasicAuthCheckerFn_cases GetUser ComparePassword name password)
    as [r [Hr' Hcase]].
  rewrite Hr in Hr'. injection Hr' as <-.
  inversion Hcase; subst; repeat split; try done.
Qed.

(** X2: the string [ID] of a granted claim is the decimal form of the
    stored id: reading it back gives the number kept under [uid], so two
    successful authentications that return the same [ID] belong to the same
    stored id. *)
Theorem X2_token_ID_determines_uid (n1 p1 n2 p2 : string)
    (c1 c2 : token.User) (e1 e2 : error) :
  BasicAuthCheckerFn GetUser ComparePassword n1 p1 = Returns (true, c1, e1) ->
  BasicAuthCheckerFn GetUser ComparePassword n2 p2 = Returns (true, c2, e2) ->
  (exists i, token.mapaccess (token.Attributes c1) "uid" = Some (token.VInt64 i)
             /\ NilZero.int_of_string (token.ID c1) = Some (Z.to_int i))
  /\ (token.ID c1 = token.ID c2 ->
      token.mapaccess (token.Attributes c1) "uid"
      = token.mapaccess (token.Attributes c2) "uid").
Proof.
  intros H1 H2.
  destruct (BasicAuthCheckerFn_cases GetUser ComparePassword n1 p1) as [r1 [Hr1 Hc1]].
  destruct (BasicAuthCheckerFn_cases GetUser ComparePassword n2 p2) as [r2 [Hr2 Hc2]].
  rewrite H1 in Hr1. injection Hr1 as <-.
  rewrite H2 in Hr2. injection Hr2 as <-.
  inversion Hc1 as [| | | u1 ? ? ?]; subst.
  inversion Hc2 as [| | | u2 ? ? ?]; subst.
  split.
  - exists (store.ID u1). split; [apply lookup_singleton_eq | apply FormatInt10_parse].
  - cbn. intros Hid. apply FormatInt10_inj in Hid. by rewrite Hid.
Qed.

Lemma refreshed_idempotent tu u : refreshed (refreshed tu u) u = refreshed tu u.
Proof.
  unfold refreshed. cbn. f_equal. f_equal.
  apply map_eq. intros k.
  rewrite !lookup_insert. repeat case_decide; congruence.
Qed.

(** X3: refreshing claims is idempotent: a second [ClaimUpdateFn] on the
    result of the first, against the same store, changes neither the claims
    nor any user object. *)
Theorem X3_ClaimUpdateFn_idempotent (h : heap) (claims : token.Claims)
    (p : token.ptr) (tu : token.User) :
  token.User_ claims = Some p -> h !! p = Some tu ->
  exists h1,
    ClaimUpdateFn GetUser h claims = Returns (h1, claims)
    /\ ClaimUpdateFn GetUser h1 claims = Returns (h1, claims).
Proof.
  intros Hp Hh. destruct (GetUser (token.Name tu)) as [u [e|]] eqn:Hget.
  - exists h. split; by eapply ClaimUpdateFn_lookup_failed.
  - exists (<[p := refreshed tu u]> h).
    split; [by eapply ClaimUpdateFn_found |].
    erewrite ClaimUpdateFn_found;
      [| exact Hp | apply lookup_insert_eq | exact Hget].
    by rewrite refreshed_idempotent, insert_insert_eq.
Qed.

(** X4: after a refresh that found the user in the store, [Validate]
    answers exactly whether the stored account is enabled, whatever the
    claims said before. *)
Theorem X4_refresh_then_Validate (h : heap) (claims : token.Claims)
    (p : token.ptr) (tu : token.User) (u : store.User) (aud : string) :
  token.User_ claims = Some p -> h !! p = Some tu ->
  GetUser (token.Name tu) = (u, None) ->
  exists h',
    ClaimUpdateFn GetUser h claims = Returns (h', claims)
    /\ Validate h' aud claims = Returns (negb (store.Disabled u)).
Proof.
  intros Hp Hh Hget. eexists. split; [by eapply ClaimUpdateFn_found |].
  unfold Validate, deref. rewrite Hp, lookup_insert_eq. cbn -[refreshed].
  unfold token.BoolAttr. by rewrite refreshed_disabled.
Qed.

(** X6: a login followed by a refresh stays valid and keeps its identity:
    when the store finds the same record under the name it returned, the
    claim granted by [BasicAuthCheckerFn] keeps name, id, role and [uid]
    through [ClaimUpdateFn] and then passes [Validate]. *)
Theorem X6_login_refresh_validate (name password : string) (u : store.User)
    (h : heap) (claims : token.Claims) (p : token.ptr) (aud : string) :
  GetUser name = (u, None) -> store.Disabled u = false ->
  ComparePassword (store.Password u) password = true ->
  GetUser (store.Name u) = (u, None) ->
  token.User_ claims = Some p ->
  exists claim tu',
    BasicAuthCheckerFn GetUser ComparePassword name password
    = Returns (true, claim, None)
    /\ ClaimUpdateFn GetUser (<[p := claim]> h) claims
       = Returns (<[p := tu']> h, claims)
    /\ token.Name tu' = token.Name claim
    /\ token.ID tu' = token.ID claim
    /\ token.Role tu' = token.Role claim
    /\ token.mapaccess (token.Attributes tu') "uid"
       = token.mapaccess (token.Attributes claim) "uid"
    /\ Validate (<[p := tu']> h) aud claims = Returns true.
Proof.
  intros Hget Hdis Hpw Hname Hp.
  exists (granted u), (refreshed (granted u) u).
  split; [by apply BasicAuthCheckerFn_match |].
  split.
  { erewrite ClaimUpdateFn_found;
      [| exact Hp | apply lookup_insert_eq | exact Hname].
    by rewrite insert_insert_eq. }
  do 3 (split; [done |]).
  split; [by rewrite refreshed_uid; symmetry; apply lookup_singleton_eq |].
  unfold Validate, deref. rewrite Hp, lookup_insert_eq. cbn -[refreshed].
  unfold token.BoolAttr. by rewrite refreshed_disabled, Hdis.
Qed.

End ServerMore.

(** X5: [Validate] accepts exactly the claims that have a user whose
    [disabled] attribute is not the boolean true: a missing attribute, a
    nil attribute map and a value of another type (the string "true", say)
    all pass; claims without a user never do. *)
Theorem X5_Validate_accepts_iff (h : heap) (aud : string) (claims : token.Claims) :
  Validate h aud claims = Returns true
  <-> exists p tu,
        token.User_ claims = Some p /\ h !! p = Some tu
        /\ token.mapaccess (token.Attributes tu) "disabled"
           <> Some (token.VBool true).
Proof.
  unfold Validate, deref. split.
  - destruct (token.User_ claims) as [p|]; [| discriminate].
    destruct (h !! p) as [tu|] eqn:Hh; [| discriminate]. cbn.
    unfold token.BoolAttr. intros Hv. exists p, tu. repeat split; [done |].
    intros Hattr. rewrite Hattr in Hv. discriminate.
  - intros (p & tu & -> & -> & Hattr). cbn. unfold token.BoolAttr.
    destruct (token.mapaccess (token.Attributes tu) "disabled") as [[[] | | |] |];
      done.
Qed.

(** X7: [ClaimUpdateFn] returns exactly when the claims have a user: with
    a nil [claims.User] it panics on the dereference, before any lookup;
    with a user it never panics, not even when the attribute map is nil. *)
Theorem X7_ClaimUpdateFn_returns_iff (GetUser : string -> store.User * error)
    (h : heap) (claims : token.Claims) :
  (exists r, ClaimUpdateFn GetUser h claims = Returns r)
  <-> exists p tu, token.User_ claims = Some p /\ h !! p = Some tu.
Proof.
  split.
  - intros [r Hr]. unfold ClaimUpdateFn, deref in Hr.
    destruct (token.User_ claims) as [p|]; [| discriminate].
    destruct (h !! p) as [tu|] eqn:Hh; [| discriminate]. by exists p, tu.
  - intros (p & tu & Hp & Hh).
    destruct (GetUser (token.Name tu)) as [u [e|]] eqn:Hget.
    + eexists. by eapply ClaimUpdateFn_lookup_failed.
    + eexists. by eapply ClaimUpdateFn_found.
Qed.

(** ** Who reaches which handler *)

Lemma passes_Auth_session env r :
  Chi.passes env r Chi.Auth = true -> exists u, Chi.req_user r = Some u.
Proof.
  cbn. intros H. apply bool_decide_eq_true in H as [u Hu]. by exists u.
Qed.

Lemma passes_RBAC_role env r roles :
  Chi.passes env r (Chi.RBAC roles) = true ->
  exists u, Chi.req_user r = Some u /\ Access.has_role roles u = true.
Proof.
  cbn. destruct (Chi.req_user r) as [u|]; [| discriminate].
  intros H. by exists u.
Qed.

Lemma has_role_admin_manager u :
  Access.has_role ["admin"] u = true ->
  Access.has_role ["admin"; "manager"] u = true.
Proof.
  unfold Access.has_role. cbn. intros H.
  apply orb_prop in H as [H | H]; [by rewrite H | discriminate].
Qed.

(** Enumerates the registered endpoints in [Hin], keeping for each the
    facts [Hchain] gives about its middlewares. *)
Ltac each_endpoint Hin :=
  apply router_endpoints in Hin; cbv beta in Hin;
  repeat (destruct Hin as [<- | Hin]; [cbn [Chi.ep_handler] |]);
  [.. | contradiction].

Ltac guard_of Hchain m H :=
  assert (H : Chi.passes _ _ m = true) by (apply Hchain; cbn; tauto).

(** X8: without a session a request reaches only the login handlers
    mounted on [/auth], the registry token endpoint [/registry/auth] and the
    static web content; every other handler is behind [Auth] or [RBAC]. *)
Theorem X8_no_session_public_only (env : Chi.middleware -> bool)
    (r : Chi.request) (e : Chi.endpoint) :
  e ∈ Chi.endpoints Chi.router -> Chi.serves env r e = true ->
  Chi.req_user r = None ->
  Access.public (Chi.ep_handler e) = true.
Proof.
  intros Hin Hs Hnone.
  pose proof (fun m => serves_chain env r e m Hs) as Hchain. clear Hs.
  each_endpoint Hin;
    first
      [ reflexivity
      | exfalso; guard_of Hchain Chi.Auth HA;
        apply passes_Auth_session in HA as [u Hu]; congruence
      | exfalso; guard_of Hchain (Chi.RBAC ["admin"]) HA;
        apply passes_RBAC_role in HA as (u & Hu & _); congruence ].
Qed.

(** X9: a session whose role is neither admin nor manager reaches, besides
    the public handlers, only the registry events, health and catalog
    handlers. *)
Theorem X9_plain_user_reach (env : Chi.middleware -> bool)
    (r : Chi.request) (e : Chi.endpoint) (u : token.User) :
  e ∈ Chi.endpoints Chi.router -> Chi.serves env r e = true ->
  Chi.req_user r = Some u ->
  Access.has_role ["admin"; "manager"] u = false ->
  Access.any_role (Chi.ep_handler e) = true.
Proof.
  intros Hin Hs Hu Hrole.
  pose proof (fun m => serves_chain env r e m Hs) as Hchain. clear Hs.
  each_endpoint Hin;
    first
      [ reflexivity
      | exfalso; guard_of Hchain (Chi.RBAC ["admin"; "manager"]) HA;
        apply passes_RBAC_role in HA as (u' & Hu' & Hr); congruence
      | exfalso; guard_of Hchain (Chi.RBAC ["admin"]) HA;
        apply passes_RBAC_role in HA as (u' & Hu' & Hr);
        apply has_role_admin_manager in Hr; congruence ].
Qed.


(** X11: no guard rejects an administrator: when the middlewares that do
    not look at the session let the request through, a session of role
    admin (in any letter case) passes every middleware in front of every
    registered endpoint. *)
Theorem X11_admin_passes_every_guard (env : Chi.middleware -> bool)
    (r : Chi.request) (e : Chi.endpoint) (u : token.User) :
  e ∈ Chi.endpoints Chi.router ->
  (forall m, env m = true) ->
  Chi.req_user r = Some u ->
  Access.has_role ["admin"] u = true ->
  forallb (Chi.passes env r) (Chi.ep_chain e) = true.
Proof.
  intros Hin Henv Hu Hrole.
  apply forallb_forall. intros m Hm.
  apply router_endpoints in Hin. cbv beta in Hin.
  assert (Hrbac : forall roles, m = Chi.RBAC roles ->
             roles = ["admin"] \/ roles = ["admin"; "manager"]).
  { intros roles ->.
    repeat (destruct Hin as [<- | Hin];
            [cbn in Hm; intuition (try discriminate; simplify_eq; auto) |]).
    contradiction. }
  destruct m; cbn; rewrite ?Henv, ?Hu; try done.
  destruct (Hrbac roles eq_refl) as [-> | ->];
    [exact Hrole | by apply has_role_admin_manager].
Qed.

(** ** Start-up, continued *)

Lemma start_has_calls s w line record listeners result :
  Lifecycle.trace (Lifecycle.start s w line record listeners result) <> [].
Proof.
  unfold Lifecycle.start. destruct (Lifecycle.locked s); [done |].
  by destruct (Startup.result (Startup.routes (Lifecycle.config s) w)).
Qed.

(** X13: [Run] makes no call at all (no log line, no lock, no
    synchronisation, no listener) exactly when no registry service is set
    or the SSL mode is none of the three it handles.  It then returns the
    error, respectively nil, and has written two fields of the server: the
    context it was given, and the empty string for a [Listen] of [*]; the
    servers and the mutex are as they were. *)
Theorem X13_Run_without_calls (s : Lifecycle.server) (c : string)
    (w : Startup.world) :
  let r := Lifecycle.Run s c w in
  let cfg := Lifecycle.config s in
  let listen := if String.eqb (Startup.Listen cfg) "*" then ""
                else Startup.Listen cfg in
  (Lifecycle.trace r = []
   <-> Startup.RegistryService cfg = None
       \/ Startup.SSLMode (Startup.SSLConfig_ cfg) = Startup.SSLOther)
  /\ (Lifecycle.trace r = [] ->
      Lifecycle.after r
      = Lifecycle.mkServer (Lifecycle.with_Listen cfg listen) (Some c)
          (Lifecycle.httpServer s) (Lifecycle.httpsServer s) (Lifecycle.locked s)
      /\ Lifecycle.ending_of r
         = Lifecycle.Ended
             (Returns (match Startup.RegistryService cfg with
                       | None => Some "a registry service define required "
                       | Some _ => None
                       end))).
Proof.
  destruct s as [[hostname listen port [mode sslport cert key] registry interval]
                   ctx http https locked].
  unfold Lifecycle.Run.
  cbn [Lifecycle.config Lifecycle.with_Listen Lifecycle.httpServer
       Lifecycle.httpsServer Lifecycle.locked Lifecycle.ctx
       Startup.RegistryService Startup.SSLConfig_ Startup.SSLMode
       Startup.Listen Startup.Port Startup.SSLPort Startup.Hostname
       Startup.GarbageCollectorInterval].
  destruct registry as [rs|]; [| by split; [split; [left |] |]].
  destruct mode;
    [ | | | by split; [split; [right |] |] ];
    (split; [split; [intros Htr; by apply start_has_calls in Htr
                    | intros [? | ?]; discriminate]
            | intros Htr; by apply start_has_calls in Htr]).
Qed.

(** What [Lifecycle.Run] calls is what [Startup.Run] calls: the model with
    the server object adds the mutex and the field writes only. *)
Lemma Lifecycle_Run_calls (s : Lifecycle.server) (c : string) (w : Startup.world) :
  Lifecycle.locked s = false ->
  Lifecycle.calls (Lifecycle.trace (Lifecycle.Run s c w))
  = Startup.trace (Startup.Run (Lifecycle.config s) w)
  /\ Lifecycle.ending_of (Lifecycle.Run s c w)
     = Lifecycle.Ended (Startup.result (Startup.Run (Lifecycle.config s) w)).
Proof.
  destruct s as [[hostname listen port [mode sslport cert key] [[sync]|] interval]
                   ctx http https locked];
    destruct w as [sub servehttp servehttps];
    cbn [Lifecycle.locked]; intros ->; [| done].
  destruct mode, sync as [err|], sub as [suberr|]; done.
Qed.

(** X14: when start-up succeeds, the listeners [Run] starts are exactly
    those of the SSL mode, in this order: in the mode [SSLNone] the API
    router on the plain port; in the modes [SSLStatic] and [SSLAuto] the
    redirect, respectively challenge, router on the plain port in a
    goroutine and then the API router over TLS on the SSL port.  A [Listen]
    value of [*] is the empty host in every address. *)
Theorem X14_listeners_by_mode (s : Startup.Server) (w : Startup.world)
    (rs : Startup.registryInterface) :
  Startup.RegistryService s = Some rs ->
  Startup.UpdateHtpasswd rs = None ->
  Startup.fs_Sub w = None ->
  let host := if String.eqb (Startup.Listen s) "*" then "" else Startup.Listen s in
  let plain := Startup.addr host (Startup.Port s) in
  let tls := Startup.addr host (Startup.SSLPort (Startup.SSLConfig_ s)) in
  List.filter Lifecycle.is_listener (Startup.trace (Startup.Run s w))
  = match Startup.SSLMode (Startup.SSLConfig_ s) with
    | Startup.SSLNone =>
        [Startup.ListenAndServe plain (Startup.ApiRouter Chi.router)]
    | Startup.SSLStatic =>
        [Startup.Go plain Startup.RedirectRouter;
         Startup.ListenAndServeTLS tls (Startup.ApiRouter Chi.router)]
    | Startup.SSLAuto =>
        [Startup.Go plain Startup.ChallengeRouter;
         Startup.ListenAndServeTLS tls (Startup.ApiRouter Chi.router)]
    | Startup.SSLOther => []
    end.
Proof.
  intros Hrs Hsync Hsub.
  destruct s as [hostname listen port [mode sslport cert key] registry interval].
  cbn in Hrs. subst registry. destruct rs as [sync]. cbn in Hsync. subst sync.
  destruct w as [sub http https]. cbn in Hsub. subst sub.
  by destruct mode.
Qed.

(** X15: once the credential file is synchronised, the maintenance tasks
    are started exactly once, with the configured interval, right after the
    synchronisation and before any listener: nothing but listeners
    follows. *)
Theorem X15_maintenance_started_once (s : Startup.Server) (w : Startup.world)
    (rs : Startup.registryInterface) :
  Startup.RegistryService s = Some rs ->
  Startup.SSLMode (Startup.SSLConfig_ s) <> Startup.SSLOther ->
  Startup.UpdateHtpasswd rs = None ->
  Startup.fs_Sub w = None ->
  exists line post,
    Startup.trace (Startup.Run s w)
    = Startup.Log line :: Startup.CallUpdateHtpasswd
      :: Startup.CallRepositoriesMaintenance (Startup.GarbageCollectorInterval s)
      :: post
    /\ post <> []
    /\ forallb Lifecycle.is_listener post = true.
Proof.
  intros Hrs Hmode Hsync Hsub.
  destruct s as [hostname listen port [mode sslport cert key] registry interval].
  cbn in Hrs, Hmode. subst registry. destruct rs as [sync]. cbn in Hsync. subst sync.
  destruct w as [sub http https]. cbn in Hsub. subst sub.
  destruct mode; [| | | done]; by eexists _, _.
Qed.

(** The wildcard host is the empty host: a server set to listen on [*]
    starts exactly as one set to listen on the empty string. *)
Lemma Run_listen_star (hostname : string) (port : Z) (ssl : Startup.SSLConfig)
    (rs : option Startup.registryInterface) (interval : Z) (w : Startup.world) :
  Startup.Run (Startup.mkServer hostname "*" port ssl rs interval) w
  = Startup.Run (Startup.mkServer hostname "" port ssl rs interval) w.
Proof. reflexivity. Qed.

(** ** Shutdown *)



(** X17: [Shutdown] after [Run], on a server that is new.  When [Run] got
    as far as returning, [Shutdown] ends, closes the storage and stops
    exactly the listeners [Run] started: the TLS server when and only when
    [Run] served over TLS, the plain server when and only when [Run]
    served or spawned a plain listener.  When [Run] panicked in [routes]
    it left the mutex held, and [Shutdown] then waits for it for ever:
    no server is stopped and the storage is not closed. *)
Theorem X17_Shutdown_after_Run (s : Lifecycle.server) (c : string)
    (w : Startup.world) (ws : Stop.world) :
  Lifecycle.locked s = false ->
  Lifecycle.httpServer s = None -> Lifecycle.httpsServer s = None ->
  let r := Lifecycle.Run s c w in
  let stop := Lifecycle.Shutdown (Lifecycle.after r) ws in
  (forall e, Lifecycle.ending_of r = Lifecycle.Ended (Returns e) ->
     Lifecycle.stop_ending stop = Lifecycle.Ended (Returns tt)
     /\ In Stop.StorageClose (Lifecycle.stop_trace stop)
     /\ (In Stop.ShutdownHTTPS (Lifecycle.stop_trace stop)
         <-> exists a what,
               In (Lifecycle.Call (Startup.ListenAndServeTLS a what))
                  (Lifecycle.trace r))
     /\ (In Stop.ShutdownHTTP (Lifecycle.stop_trace stop)
         <-> exists a what,
               In (Lifecycle.Call (Startup.ListenAndServe a what)) (Lifecycle.trace r)
               \/ In (Lifecycle.Call (Startup.Go a what)) (Lifecycle.trace r)))
  /\ (forall msg, Lifecycle.ending_of r = Lifecycle.Ended (Panics msg) ->
        Lifecycle.locked (Lifecycle.after r) = true
        /\ Lifecycle.stop_ending stop = Lifecycle.Blocked
        /\ Lifecycle.stop_trace stop = [Stop.Log "[WARN] shutdown rest server"])
  /\ Lifecycle.ending_of r <> Lifecycle.Blocked.
Proof.
  destruct s as [[hostname listen port [mode sslport cert key] [[sync]|] interval]
                   ctx http https locked];
    destruct w as [sub servehttp servehttps], ws as [[e1|] [e2|] [e3|]];
    cbn [Lifecycle.locked Lifecycle.httpServer Lifecycle.httpsServer];
    intros -> -> ->;
    try destruct mode; try destruct sync as [err|]; try destruct sub as [suberr|];
    cbn.
  all: split; [| split; [| discriminate]].
  all: try (intros msg Hmsg; first [discriminate Hmsg | by repeat split]).
  all: intros e _; split; [reflexivity | split; [tauto |]].
  all: split;
    (split;
     [ intros Hin; first [ by eexists _, _; eauto 20
                         | exfalso; intuition discriminate ]
     | intros (a & what & Hin);
       first [ tauto | exfalso; intuition discriminate ] ]).
Qed.

(** ** Static web content *)

Lemma append_assoc (a b c : string) : (a +:+ b) +:+ c = a +:+ (b +:+ c).
Proof. induction a as [|x a IH]; [done |]. change (String x ((a +:+ b) +:+ c) = String x (a +:+ (b +:+ c))). by f_equal. Qed.

Lemma last_byte_split s c :
  StaticWeb.last_byte s = Some c -> exists base, s = base +:+ String c "".
Proof.
  induction s as [|x s IH]; [discriminate |].
  destruct s as [|y s].
  - intros [= ->]. by exists "".
  - intros Hlast. destruct (IH Hlast) as [base Hbase].
    exists (String x base).
    change (String x (String y s) = String x (base +:+ String c "")).
    by f_equal.
Qed.

Lemma leading_slash_append a b :
  a <> "" -> StaticWeb.leading_slash (a +:+ b) = StaticWeb.leading_slash a.
Proof. by destruct a. Qed.

Lemma last_byte_None s : StaticWeb.last_byte s = None -> s = "".
Proof.
  destruct s as [|x s]; [done |]. revert x.
  induction s as [|y s IH]; intros x; [discriminate |].
  intros Hlast. by apply IH in Hlast.
Qed.

(** X18: what [serveStaticWeb] registers, for any path and whatever the
    router accepts as a pattern.  When it returns, the last registration is
    the content handler on the path with exactly one slash and a star
    behind it, a pattern the router accepted; a path that lacks the final
    slash is itself accepted as a pattern and gets a redirect to the path
    with the slash first, a path that has the slash gets nothing else.  It
    returns for exactly the non-empty paths whose patterns the router
    accepts; the empty path panics on the index.  With a router that
    insists on a leading slash, only paths that begin with a slash are
    served. *)
Theorem X18_static_registrations (valid : string -> bool) (path : string) :
  (forall regs,
      StaticWeb.serveStaticWeb valid None path = Returns regs ->
      exists base,
        last regs = Some (StaticWeb.GetContent (base +:+ "/*"))
        /\ valid (base +:+ "/*") = true
        /\ (path = base +:+ "/" /\ regs = [StaticWeb.GetContent (base +:+ "/*")]
            \/ path = base /\ StaticWeb.last_byte path <> Some "/"%char
               /\ valid path = true
               /\ regs = [StaticWeb.GetRedirect path (path +:+ "/");
                          StaticWeb.GetContent (base +:+ "/*")]))
  /\ ((exists regs, StaticWeb.serveStaticWeb valid None path = Returns regs)
      <-> path <> ""
          /\ (if bool_decide (StaticWeb.last_byte path = Some "/"%char)
              then valid (path +:+ "*")
              else valid path && valid (path +:+ "/*")) = true)
  /\ (path = "" ->
      StaticWeb.serveStaticWeb valid None path = Panics "index out of range [-1]")
  /\ ((forall pattern, valid pattern = true ->
                       StaticWeb.leading_slash pattern = true) ->
      forall regs, StaticWeb.serveStaticWeb valid None path = Returns regs ->
                   StaticWeb.leading_slash path = true).
Proof.
  assert (Hshape :
    StaticWeb.serveStaticWeb valid None path
    = match StaticWeb.last_byte path with
      | None => Panics "index out of range [-1]"
      | Some c =>
          if Ascii.eqb c "/" then
            if valid (path +:+ "*")
            then Returns [StaticWeb.GetContent (path +:+ "*")]
            else Panics ("chi: invalid routing pattern '" +:+ (path +:+ "*") +:+ "'")
          else if valid path then
            if valid (path +:+ "/*")
            then Returns [StaticWeb.GetRedirect path (path +:+ "/");
                          StaticWeb.GetContent (path +:+ "/*")]
            else Panics ("chi: invalid routing pattern '" +:+ (path +:+ "/*") +:+ "'")
          else Panics ("chi: invalid routing pattern '" +:+ path +:+ "'")
      end).
  { unfold StaticWeb.serveStaticWeb, StaticWeb.Get.
    destruct (String.eqb_spec path "/") as [-> | Hroot];
      [cbn; change ("/" +:+ "*") with "/*"; by destruct (valid "/*") |].
    destruct (StaticWeb.last_byte path) as [c|]; [| done].
    destruct (Ascii.eqb c "/"); cbn.
    - by destruct (valid (path +:+ "*")).
    - destruct (valid path); cbn; [| done].
      rewrite append_assoc. change ("/" +:+ "*") with "/*".
      by destruct (valid (path +:+ "/*")). }
  rewrite Hshape. clear Hshape.
  destruct (StaticWeb.last_byte path) as [c|] eqn:Hlast.
  - assert (Hne : path <> "") by (by intros ->).
    destruct (Ascii.eqb_spec c "/") as [-> | Hc].
    + destruct (last_byte_split _ _ Hlast) as [base Hbase].
      rewrite bool_decide_eq_true_2 by done.
      destruct (valid (path +:+ "*")) eqn:Hvalid.
      * assert (Hpat : path +:+ "*" = base +:+ "/*")
          by (by rewrite Hbase, append_assoc).
        split; [| split; [| split]].
        -- intros regs [= <-]. exists base. rewrite Hpat in *.
           repeat split; try done. by left.
        -- split; [done | by eexists].
        -- done.
        -- intros Hslash regs _. apply Hslash in Hvalid.
           by rewrite leading_slash_append in Hvalid.
      * split; [done |]. split; [| split; [done | done]].
        split; [by intros [? ?] | by intros [_ ?]].
    + rewrite bool_decide_eq_false_2 by (intros [= ->]; by apply Hc).
      destruct (valid path) eqn:Hvalid; cbn;
        [destruct (valid (path +:+ "/*")) eqn:Hvalid2 |].
      * split; [| split; [| split]].
        -- intros regs [= <-]. exists path. repeat split; try done.
           right. repeat split; try done. intros [= ->]. by apply Hc.
        -- split; [done | by eexists].
        -- done.
        -- intros Hslash regs _. by apply Hslash.
      * split; [done |]. split; [| split; [done | done]].
        split; [by intros [? ?] | by intros [_ ?]].
      * split; [done |]. split; [| split; [done | done]].
        split; [by intros [? ?] | by intros [_ ?]].
  - apply last_byte_None in Hlast. subst path.
    split; [done |]. split; [| split; [done | done]].
    split; [by intros [? ?] | by intros [? _]].
Qed.

Lemma X18_witness :
  StaticWeb.serveStaticWeb StaticWeb.leading_slash None "/web"
  = Returns [StaticWeb.GetRedirect "/web" "/web/"; StaticWeb.GetContent "/web/*"]
  /\ StaticWeb.leading_slash "/web" = true.
Proof.
  split; [reflexivity |].
  exact (proj2 (proj2 (proj2
           (X18_static_registrations StaticWeb.leading_slash "/web")))
           (fun _ H => H) _ eq_refl).
Defined.

(** X19: the handler of the static content passes a request to the file
    server exactly when the file exists or the path is the root; any other
    path gets the index page of the single-page application, or the status
    500 when the index template cannot be read.  The file server sees the
    path of the request. *)
Theorem X19_spa_fallback (fs : StaticWeb.webfs) (rootWebDir urlPath : string) :
  (StaticWeb.handler fs rootWebDir urlPath = StaticWeb.FileServer urlPath
   <-> StaticWeb.Open fs (rootWebDir +:+ urlPath) = None \/ urlPath = "/")
  /\ (StaticWeb.handler fs rootWebDir urlPath = StaticWeb.InternalServerError
      <-> StaticWeb.Open fs (rootWebDir +:+ urlPath) <> None
          /\ urlPath <> "/"
          /\ StaticWeb.ParseFS fs (rootWebDir +:+ "/index.html") <> None)
  /\ (forall complete,
        StaticWeb.handler fs rootWebDir urlPath = StaticWeb.IndexPage complete ->
        (complete = true <-> StaticWeb.Execute fs = None))
  /\ (forall q, StaticWeb.handler fs rootWebDir urlPath = StaticWeb.FileServer q ->
                q = urlPath).
Proof.
  unfold StaticWeb.handler.
  destruct (StaticWeb.Open fs (rootWebDir +:+ urlPath)) as [e|];
    destruct (String.eqb_spec urlPath "/") as [-> | Hroot]; cbn;
    destruct (StaticWeb.ParseFS fs (rootWebDir +:+ "/index.html")) as [e'|];
    destruct (StaticWeb.Execute fs) as [e''|];
    repeat split; try done; try (intros; simplify_eq; done);
    try (intros [? | ?]; done); try (by left); try (by right);
    try (intros (? & ? & ?); done).
Qed.

(** ** The properties at sample inputs *)

Lemma X1_witness :
  BasicAuthCheckerFn Sample.GetUser Sample.ComparePassword "alice" "guess"
  = Returns (false, token.zero, None)
  /\ (false = false -> token.zero = token.zero).
Proof.
  split; [reflexivity |].
  exact (proj1 (X1_refusal_carries_no_user Sample.GetUser Sample.ComparePassword
                  "alice" "guess" false token.zero None eq_refl)).
Defined.

Lemma X2_witness :
  BasicAuthCheckerFn Sample.GetUser Sample.ComparePassword "alice" "wonder"
  = Returns (true, granted (Sample.GetUser "alice").1, None)
  /\ exists i,
       token.mapaccess (token.Attributes (granted (Sample.GetUser "alice").1)) "uid"
       = Some (token.VInt64 i)
       /\ NilZero.int_of_string (token.ID (granted (Sample.GetUser "alice").1))
          = Some (Z.to_int i).
Proof.
  split; [reflexivity |].
  exact (proj1 (X2_token_ID_determines_uid Sample.GetUser Sample.ComparePassword
                  "alice" "wonder" "alice" "wonder" _ _ None None eq_refl eq_refl)).
Defined.

Lemma X3_witness :
  let h : heap := {[ 1%positive := Sample.user "alice" ]} in
  h !! 1%positive = Some (Sample.user "alice")
  /\ exists h1,
       ClaimUpdateFn Sample.GetUser h (Sample.claims 1%positive)
       = Returns (h1, Sample.claims 1%positive)
       /\ ClaimUpdateFn Sample.GetUser h1 (Sample.claims 1%positive)
          = Returns (h1, Sample.claims 1%positive).
Proof.
  intros h. split; [reflexivity |].
  exact (X3_ClaimUpdateFn_idempotent Sample.GetUser h (Sample.claims 1%positive)
           1%positive (Sample.user "alice") eq_refl eq_refl).
Defined.

Lemma X4_witness :
  let h : heap := {[ 1%positive := Sample.user "mallory" ]} in
  Sample.GetUser "mallory" = (store.mkUser 9 "mallory" "h:evil" "user" true, None)
  /\ exists h',
       ClaimUpdateFn Sample.GetUser h (Sample.claims 1%positive)
       = Returns (h', Sample.claims 1%positive)
       /\ Validate h' "registry" (Sample.claims 1%positive) = Returns false.
Proof.
  intros h. split; [reflexivity |].
  exact (X4_refresh_then_Validate Sample.GetUser h (Sample.claims 1%positive)
           1%positive (Sample.user "mallory") _ "registry"
           eq_refl eq_refl eq_refl).
Defined.

Lemma X6_witness :
  Sample.GetUser (store.Name (Sample.GetUser "alice").1) = Sample.GetUser "alice"
  /\ exists claim tu',
       BasicAuthCheckerFn Sample.GetUser Sample.ComparePassword "alice" "wonder"
       = Returns (true, claim, None)
       /\ ClaimUpdateFn Sample.GetUser (<[1%positive := claim]> ∅)
            (Sample.claims 1%positive)
          = Returns (<[1%positive := tu']> ∅, Sample.claims 1%positive)
       /\ Validate (<[1%positive := tu']> ∅) "registry" (Sample.claims 1%positive)
          = Returns true.
Proof.
  split; [reflexivity |].
  destruct (X6_login_refresh_validate Sample.GetUser Sample.ComparePassword
              "alice" "wonder" _ ∅ (Sample.claims 1%positive) 1%positive "registry"
              eq_refl eq_refl eq_refl eq_refl eq_refl)
    as (claim & tu' & Hlogin & Hrefresh & _ & _ & _ & _ & Hvalid).
  by exists claim, tu'.
Defined.

Lemma X8_witness :
  let r := Chi.mkRequest Chi.GET "/api/v1/registry/auth" None in
  let e := Chi.mkEndpoint (Some Chi.GET) "/api/v1/registry/auth"
             (Access.global ++ [Chi.LimitHandler 10; Chi.Trace; Chi.NoCache])%list
             Chi.tokenAuth in
  Chi.serves (fun _ => true) r e = true
  /\ Access.public (Chi.ep_handler e) = true.
Proof.
  intros r e. split; [reflexivity |].
  assert (Hin : e ∈ Chi.endpoints Chi.router)
    by (apply list_elem_of_In; vm_compute; tauto).
  exact (X8_no_session_public_only (fun _ => true) r e Hin eq_refl eq_refl).
Defined.

Lemma X9_witness :
  let u := token.SetRole (Sample.user "carol") "user" in
  let r := Chi.mkRequest Chi.GET "/api/v1/registry/catalog" (Some u) in
  let e := Chi.mkEndpoint (Some Chi.GET) "/api/v1/registry/catalog"
             (Access.global ++ [Chi.LimitHandler 10; Chi.Trace; Chi.NoCache;
                                Chi.Auth; Chi.NoCache])%list
             Chi.catalogList in
  Chi.serves (fun _ => true) r e = true
  /\ Access.has_role ["admin"; "manager"] u = false
  /\ Access.any_role (Chi.ep_handler e) = true.
Proof.
  intros u r e. split; [reflexivity |]. split; [reflexivity |].
  assert (Hin : e ∈ Chi.endpoints Chi.router)
    by (apply list_elem_of_In; vm_compute; tauto).
  exact (X9_plain_user_reach (fun _ => true) r e u Hin eq_refl eq_refl eq_refl).
Defined.


Lemma X11_witness :
  let u := token.SetRole (Sample.user "alice") "ADMIN" in
  let r := Chi.mkRequest Chi.DELETE "/api/v1/users/5" (Some u) in
  let e := Chi.mkEndpoint (Some Chi.DELETE) "/api/v1/users/{id}"
             (Access.global ++ [Chi.LimitHandler 10; Chi.Trace; Chi.NoCache;
                                Chi.Auth; Chi.NoCache;
                                Chi.RBAC ["admin"; "manager"];
                                Chi.RBAC ["admin"]])%list
             Chi.userDeleteCtrl in
  Access.has_role ["admin"] u = true
  /\ forallb (Chi.passes (fun _ => true) r) (Chi.ep_chain e) = true.
Proof.
  intros u r e. split; [reflexivity |].
  assert (Hin : e ∈ Chi.endpoints Chi.router)
    by (apply list_elem_of_In; vm_compute; tauto).
  exact (X11_admin_passes_every_guard (fun _ => true) r e u Hin (fun _ => eq_refl)
           eq_refl eq_refl).
Defined.

Lemma X14_witness :
  Startup.UpdateHtpasswd (Startup.mkRegistry None) = None
  /\ List.filter Lifecycle.is_listener
       (Startup.trace (Startup.Run (Sample.server None) Sample.world))
     = [Startup.Go ":80" Startup.RedirectRouter;
        Startup.ListenAndServeTLS ":443" (Startup.ApiRouter Chi.router)].
Proof.
  split; [reflexivity |].
  exact (X14_listeners_by_mode (Sample.server None) Sample.world _
           eq_refl eq_refl eq_refl).
Defined.

Lemma X15_witness :
  Startup.UpdateHtpasswd (Startup.mkRegistry None) = None
  /\ exists line post,
       Startup.trace (Startup.Run (Sample.server None) Sample.world)
       = Startup.Log line :: Startup.CallUpdateHtpasswd
         :: Startup.CallRepositoriesMaintenance 3600 :: post.
Proof.
  split; [reflexivity |].
  assert (Hmode : Startup.SSLMode (Startup.SSLConfig_ (Sample.server None))
                  <> Startup.SSLOther) by discriminate.
  destruct (X15_maintenance_started_once (Sample.server None) Sample.world
              _ eq_refl Hmode eq_refl eq_refl) as (line & post & Htrace & _).
  by exists line, post.
Defined.

Lemma X17_witness :
  let s := Lifecycle.mkServer (Sample.server (Some "permission denied"))
             None None None false in
  Lifecycle.ending_of (Lifecycle.Run s "main" Sample.world)
  = Lifecycle.Ended (Panics "failed to update htpasswd: permission denied")
  /\ Lifecycle.stop_ending
       (Lifecycle.Shutdown (Lifecycle.after (Lifecycle.Run s "main" Sample.world))
          (Stop.mkWorld None None None))
     = Lifecycle.Blocked.
Proof.
  intros s. split; [reflexivity |].
  destruct (X17_Shutdown_after_Run s "main" Sample.world (Stop.mkWorld None None None)
              eq_refl eq_refl eq_refl) as (_ & Hpanic & _).
  exact (proj1 (proj2 (Hpanic _ eq_refl))).
Defined.
